(** * The 4th-down decision service, embedded in Rocq

    A shallow embedding of [decision_service/simulator.py],
    [decision_service/server.py], [decision_service/cache.py],
    [decision_service/models_store.py] and [decision_service/schemas.py].

    Python floats are IEEE binary64 numbers, so they are modelled by Rocq's
    primitive floats, which compute with the same roundings.  Python
    integers are unbounded and are modelled by [Z].  Exceptions are values
    of [exn]; the stateful parts of the server run in a state-and-exception
    monad whose state survives a raised exception, as a Python process's
    module-level singletons do. *)

From Stdlib Require Import ZArith List String Ascii Floats Lia Bool.
From stdpp Require Import gmap strings pretty.
Import ListNotations.

#[local] Set Warnings "-inexact-float".
#[local] Open Scope Z_scope.

(** ** Python values *)

(** The exceptions the modelled code can raise. *)
Inductive exn : Type :=
  | OverflowError                      (* float(<huge int>) *)
  | AttributeError                     (* a method call on None *)
  | FileNotFoundError (path : string)  (* joblib.load of a missing file *)
  | ValueError                         (* max() of an empty sequence *)
  | KeyError                           (* a dict lookup of a missing key *)
  | ValidationError                    (* a pydantic field constraint fails *)
  | OperationalError                   (* the database cannot be reached *)
  | IntegrityError.                    (* a primary key is violated *)

Inductive result (A : Type) : Type :=
  | Ok (a : A)
  | Raise (e : exn).
Arguments Ok {A} a.
Arguments Raise {A} e.

Definition rbind {A B} (r : result A) (k : A -> result B) : result B :=
  match r with
  | Ok a => k a
  | Raise e => Raise e
  end.

Declare Scope result_scope.
Delimit Scope result_scope with result.
Notation "x <- r ;; k" := (rbind r (fun x => k))
  (at level 100, r at next level, right associativity) : result_scope.

(** An element of a feature list handed to a model: the simulator mixes
    Python ints and floats in one list and leaves the conversion to the
    model's library. *)
Inductive num : Type :=
  | NInt (z : Z)
  | NFloat (f : float).

(** A loaded model, seen through the one method the service calls on it:
    [predict([x])[0]] for the EP regressor, [predict_proba([x])[0, 1]] for
    the calibrated WP classifier. *)
Definition predictor : Type := list num -> float.

(** [float(z)] for a Python int: the nearest binary64 number, ties to even;
    CPython raises OverflowError when that number would be infinite. *)
Definition float_of_Z (z : Z) : float :=
  SF2Prim (binary_normalize prec emax z 0 false).

Definition py_float (z : Z) : result float :=
  let f := float_of_Z z in
  if is_infinity f then Raise OverflowError else Ok f.

(** Python's two-argument [min] and [max] keep the first argument unless
    the second is strictly smaller (larger). *)
Definition py_min (a b : float) : float := if (b <? a)%float then b else a.
Definition py_max (a b : float) : float := if (a <? b)%float then b else a.

(** [np.clip] on a scalar: numpy's [_NPY_MIN (_NPY_MAX x lo) hi], where a
    NaN first argument is returned as it is. *)
Definition npy_max (a b : float) : float :=
  if is_nan a then a else if (b <? a)%float then a else b.
Definition npy_min (a b : float) : float :=
  if is_nan a then a else if (a <? b)%float then a else b.
Definition np_clip (x lo hi : float) : float := npy_min (npy_max x lo) hi.

(** ** simulator.py *)

(** The [features] dict built by the server.  The two team-strength keys
    are read with [dict.get(key, 0.0)], so they may be absent. *)
Record Features : Type := {
  f_down : Z;
  f_ydstogo : Z;
  f_yardline_100 : Z;
  f_time_remaining : Z;
  f_qtr : Z;
  f_score_diff : Z;
  f_offense_timeouts : Z;
  f_defense_timeouts : Z;
  f_home : bool;
  f_team_strength_off : option float;
  f_team_strength_def : option float
}.

(** One entry of the simulator's answer: [{"wp": ..., "ep": ...}]. *)
Record Outcome : Type := { wp : float; ep : float }.

Definition home_flag (base : Features) : Z := if f_home base then 1 else 0.

(** The nine EP features, with the yardline slot left to the caller. *)
Definition ep_features (base : Features) (yardline_for_model : float) : list num :=
  [ NInt (f_down base); NInt (f_ydstogo base); NFloat yardline_for_model;
    NInt (f_qtr base); NInt (f_time_remaining base); NInt (f_score_diff base);
    NInt (f_offense_timeouts base); NInt (f_defense_timeouts base);
    NInt (home_flag base) ].

Definition _predict_ep_with_possession (ep_model : predictor) (base : Features)
    (yardline_offense_view : float) (possession : Z) : float :=
  let yardline_for_model :=
    if possession =? 1 then yardline_offense_view
    else (100 - yardline_offense_view)%float in
  ep_model (ep_features base yardline_for_model).

(** The twelve WP features of the original situation. *)
Definition wp_features (base : Features) (possession : Z) : list num :=
  [ NInt (f_down base); NInt (f_ydstogo base); NInt (f_yardline_100 base);
    NInt (f_qtr base); NInt (f_time_remaining base); NInt (f_score_diff base);
    NInt (f_offense_timeouts base); NInt (f_defense_timeouts base);
    NInt (home_flag base); NInt possession;
    NFloat (default 0%float (f_team_strength_off base));
    NFloat (default 0%float (f_team_strength_def base)) ].

Section Simulator.
(** [np.exp] belongs to numpy's C library and is a parameter here. *)
Variable np_exp : float -> float.

Definition _ep_to_wp (wp_calibrated : option predictor) (base : Features)
    (ep_value : float) (possession : Z) : result float :=
  (let x := wp_features base possession in
   x5 <- py_float (f_score_diff base) ;;
   let x_mod := <[5%nat := NFloat (x5 + 0.2 * ep_value)%float]> x in
   prob <- match wp_calibrated with
           | Some predict_proba => Ok (predict_proba x_mod)
           | None => Raise AttributeError
           end ;;
   score <- py_float (f_score_diff base) ;;
   _time <- py_float (f_time_remaining base) ;;
   let bias := (1 / (1 + np_exp (0.18 * (- score))))%float in
   let pos_adj := if possession =? 1 then 0.06%float else (-0.06)%float in
   let blended := (0.7 * prob + 0.3 * (0.5 * bias + pos_adj + 0.5))%float in
   Ok (np_clip blended 0.01 0.99))%result.

(** The dict the simulator returns keeps its insertion order:
    ["GO"], ["PUNT"], ["FG"]. *)
Definition simulate_actions_to_wp (ep_model : predictor)
    (wp_calibrated : option predictor) (features : Features)
    : result (list (string * Outcome)) :=
  (let base := features in
   yardline <- py_float (f_yardline_100 base) ;;
   togo <- (if f_ydstogo base =? 0 then Ok 1%float
            else py_float (f_ydstogo base)) ;;
   (* GO *)
   let p_conv :=
     if (togo <=? 2)%float then 0.65%float
     else if (togo <=? 4)%float then 0.5%float else 0.3%float in
   let go_success_yardline_off :=
     py_min 99 (yardline + py_min 6 (togo + 1))%float in
   let go_fail_yardline_off := yardline in
   let ep_go_success :=
     _predict_ep_with_possession ep_model base go_success_yardline_off 1 in
   let ep_go_fail :=
     _predict_ep_with_possession ep_model base go_fail_yardline_off 0 in
   let ep_go := (p_conv * ep_go_success + (1 - p_conv) * ep_go_fail)%float in
   (* PUNT *)
   let punt_net := 38%float in
   let y_after_punt_off := py_max 1 (yardline - punt_net)%float in
   let ep_punt :=
     _predict_ep_with_possession ep_model base y_after_punt_off 0 in
   (* FG *)
   let dist_fg := (118 - yardline)%float in
   let p_make := (0.95 - 0.01 * py_max 0 (dist_fg - 25))%float in
   let p_make := np_clip p_make 0.05 0.98 in
   let ep_after_kick := _predict_ep_with_possession ep_model base 75 0 in
   let ep_if_make := (3 + ep_after_kick)%float in
   let y_off_miss := py_max 1 (yardline - 7)%float in
   let ep_if_miss :=
     _predict_ep_with_possession ep_model base y_off_miss 0 in
   let ep_fg := (p_make * ep_if_make + (1 - p_make) * ep_if_miss)%float in
   (* EP to WP *)
   wp_go <- _ep_to_wp wp_calibrated base ep_go 1 ;;
   wp_punt <- _ep_to_wp wp_calibrated base ep_punt 0 ;;
   wp_fg <- _ep_to_wp wp_calibrated base ep_fg 0 ;;
   Ok [ ("GO"%string, {| wp := wp_go; ep := ep_go |});
        ("PUNT"%string, {| wp := wp_punt; ep := ep_punt |});
        ("FG"%string, {| wp := wp_fg; ep := ep_fg |}) ])%result.
End Simulator.

(** ** Python built-ins used by the server *)

(** [sorted] on floats.  CPython's sort is stable and compares with [<]
    only; a new element goes behind every element it is not smaller than.
    On lists without NaN, where [<] is a strict weak order, every stable
    sort returns this list. *)
Fixpoint sorted_insert (x : float) (l : list float) : list float :=
  match l with
  | [] => [x]
  | y :: l' => if (x <? y)%float then x :: l else y :: sorted_insert x l'
  end.

Definition sorted (l : list float) : list float :=
  fold_left (fun acc x => sorted_insert x acc) l [].

(** [max(items, key=...)]: the first item of largest key (a later item
    replaces the best so far only when its key is strictly larger);
    ValueError on an empty sequence. *)
Definition py_max_by {A} (key : A -> float) (l : list A) : result A :=
  match l with
  | [] => Raise ValueError
  | x :: l' =>
      Ok (fold_left (fun best y => if (key best <? key y)%float then y else best)
                    l' x)
  end.

(** [d[k]] on an insertion-ordered dict with string keys. *)
Fixpoint dict_get {A} (d : list (string * A)) (k : string) : option A :=
  match d with
  | [] => None
  | (k', v) :: d' => if String.eqb k' k then Some v else dict_get d' k
  end.

(** [s.startswith(p)]. *)
Fixpoint startswith (p s : string) : bool :=
  match p, s with
  | EmptyString, _ => true
  | String a p', String b s' => Ascii.eqb a b && startswith p' s'
  | String _ _, EmptyString => false
  end.

(** Scanner shared by [str.split] and [str.replace] for a non-empty
    separator: [skip] counts the characters of a match still to be
    dropped, [cur] is the piece read so far, reversed. *)
Fixpoint split_scan (sep s : string) (skip : nat) (cur : string) : list string :=
  match skip with
  | S k =>
      match s with
      | EmptyString => [String.rev cur]
      | String _ s' => split_scan sep s' k cur
      end
  | O =>
      match s with
      | EmptyString => [String.rev cur]
      | String c s' =>
          if startswith sep s
          then String.rev cur :: split_scan sep s' (String.length sep - 1) EmptyString
          else split_scan sep s' O (String c cur)
      end
  end.

(** [s.split(sep)] for a non-empty [sep]. *)
Definition py_split (s sep : string) : list string := split_scan sep s O EmptyString.

(** [s.replace(old, new)] for a non-empty [old]: the pieces between the
    matches, joined by [new]. *)
Definition py_replace (s old new : string) : string :=
  String.concat new (py_split s old).

Definition endswith (suffix s : string) : bool :=
  startswith (String.rev suffix) (String.rev s).


(** [sorted] on strings, by code point. *)
Fixpoint sorted_insert_str (x : string) (l : list string) : list string :=
  match l with
  | [] => [x]
  | y :: l' => if String.ltb x y then x :: l else y :: sorted_insert_str x l'
  end.

Definition sorted_str (l : list string) : list string :=
  fold_left (fun acc x => sorted_insert_str x acc) l [].

(** ** schemas.py *)

Record RecommendQuery : Type := {
  down : Z;
  ydstogo : Z;
  yardline_100 : Z;
  time_remaining : Z;
  qtr : Z;
  score_diff : Z;
  offense_timeouts : Z;
  defense_timeouts : Z;
  home : bool;
  weather_temp : option float;
  weather_wind : option float;
  weather_rain : option bool;
  possession : option string;
  team_strength_off : option float;
  team_strength_def : option float
}.

(** The field constraints of [RecommendQuery]. *)
Definition valid_query (q : RecommendQuery) : bool :=
  (1 <=? down q) && (down q <=? 4)
  && (1 <=? ydstogo q) && (ydstogo q <=? 100)
  && (1 <=? yardline_100 q) && (yardline_100 q <=? 99)
  && (0 <=? time_remaining q)
  && (1 <=? qtr q) && (qtr q <=? 5)
  && (0 <=? offense_timeouts q) && (offense_timeouts q <=? 3)
  && (0 <=? defense_timeouts q) && (defense_timeouts q <=? 3)
  && match possession q with
     | None => true
     | Some p => String.eqb p "offense" || String.eqb p "defense"
     end.

Record Alternative : Type := {
  action : string;
  alt_wp : float;
  alt_ep : float
}.

Record Uncertainty : Type := { std : float; method : string }.

Record RecommendResponse : Type := {
  recommendation : string;
  delta_wp : float;
  delta_ep : float;
  alternatives : list Alternative;
  rationale : list string;
  uncertainty : Uncertainty;
  version : string
}.

(** [BulkResponseItem] subclasses [RecommendResponse] and adds nothing;
    [BulkResponse] holds a list of them. *)
Record BulkResponseItem : Type := { item_fields : RecommendResponse }.

Record BulkResponse : Type := { items : list BulkResponseItem }.

(** pydantic's check of one value given for a field of type
    [BulkResponseItem]: it takes an instance of that class or a dict of
    its fields.  An instance of the parent class [RecommendResponse] is
    neither, so the check fails. *)
Definition validate_BulkResponseItem (value : RecommendResponse)
    : result BulkResponseItem :=
  Raise ValidationError.

Fixpoint validate_items (values : list RecommendResponse)
    : result (list BulkResponseItem) :=
  match values with
  | [] => Ok []
  | value :: values' =>
      (checked <- validate_BulkResponseItem value ;;
       rest <- validate_items values' ;;
       Ok (checked :: rest))%result
  end.

(** [BulkResponse(items=values)]. *)
Definition BulkResponse_init (values : list RecommendResponse) : result BulkResponse :=
  (checked <- validate_items values ;;
   Ok {| items := checked |})%result.

(** ** cache.py *)

(** [cachetools.LRUCache] with every entry of size 1: the entries in order
    of use, least recently used first.  Reading an entry and writing one
    both move it to the end; a write of a new key first evicts from the
    front while the cache is full. *)
Module LRUCache.
Section WithValue.
Context {V : Type}.

Record t : Type := { maxsize : Z; data : list (string * V) }.

Definition remove (k : string) (d : list (string * V)) : list (string * V) :=
  List.filter (fun kv => negb (String.eqb (fst kv) k)) d.

Definition peek (c : t) (k : string) : option V := dict_get (data c) k.

(** [cache.get(k)]. *)
Definition get (c : t) (k : string) : option V * t :=
  match peek c k with
  | Some v =>
      (Some v, {| maxsize := maxsize c; data := remove k (data c) ++ [(k, v)] |})
  | None => (None, c)
  end.

(** [popitem] until one more entry fits. *)
Fixpoint evict (fuel : nat) (limit : Z) (d : list (string * V)) : list (string * V) :=
  match fuel with
  | O => d
  | S fuel' =>
      if limit <? Z.of_nat (length d) + 1
      then match d with
           | [] => d
           | _ :: d' => evict fuel' limit d'
           end
      else d
  end.

(** [cache[k] = v]; a cache of capacity 0 refuses every value. *)
Definition set (c : t) (k : string) (v : V) : result t :=
  if maxsize c <? 1 then Raise ValueError
  else
    match peek c k with
    | Some _ =>
        Ok {| maxsize := maxsize c; data := remove k (data c) ++ [(k, v)] |}
    | None =>
        let d := evict (length (data c)) (maxsize c) (data c) in
        Ok {| maxsize := maxsize c; data := d ++ [(k, v)] |}
    end.
End WithValue.
Arguments t : clear implicits.
End LRUCache.

(** What [cachetools.Cache] keeps between calls: one entry per key, and
    no more entries than [maxsize]. *)
Definition within_capacity {V} (c : LRUCache.t V) : Prop :=
  List.NoDup (map fst (LRUCache.data c))
  /\ Z.of_nat (length (LRUCache.data c)) <= LRUCache.maxsize c.

(** ** models_store.py *)

(** What [joblib.load] returns for one artifact file: the dict written by
    [save_model].  The EP artifact is saved with [calibrator = None]. *)
Record Artifact : Type := {
  art_model : predictor;
  art_calibrator : option predictor;
  art_metadata : list (string * float)
}.

(** The models directory: file name to file content; [None] when the
    directory does not exist.  With [DECISION_MODELS_DIR] unset,
    [models_store.MODELS_DIR] and the directory [server._current_version]
    lists are the same directory. *)
Definition ModelsDir : Type := option (gmap string Artifact).

Definition artifact_fname (name version : string) : string :=
  (name ++ "__" ++ version ++ ".joblib")%string.

Definition load_model (dir : ModelsDir) (name version : string)
    : result (predictor * option predictor * list (string * float)) :=
  let fname := artifact_fname name version in
  match dir with
  | None => Raise (FileNotFoundError fname)
  | Some files =>
      match files !! fname with
      | Some obj => Ok (art_model obj, art_calibrator obj, art_metadata obj)
      | None => Raise (FileNotFoundError fname)
      end
  end.

Definition save_model (dir : ModelsDir) (name version : string)
    (model : predictor) (calibrator : option predictor)
    (metadata : list (string * float)) : ModelsDir :=
  let files := default ∅ dir in
  Some (<[artifact_fname name version :=
            {| art_model := model; art_calibrator := calibrator;
               art_metadata := metadata |}]> files).

(** ** db.py: the [requests] ledger *)

(** One row of the [requests] table; [trace_id] is its primary key.  The
    JSON text of the parameters is kept as the query it serialises. *)
Record RequestRow : Type := {
  trace_id : string;
  params_json : RecommendQuery;
  latency_ms : float;
  rec : string;
  row_delta_wp : float
}.

(** The database behind [engine]: it may be unreachable, and it enforces
    the primary key. *)
Record Database : Type := { online : bool; requests : list RequestRow }.

(** [with engine.begin() as conn: conn.execute(INSERT INTO requests ...)]. *)
Definition insert_request (d : Database) (row : RequestRow) : result Database :=
  if negb (online d) then Raise OperationalError
  else if existsb (fun r => String.eqb (trace_id r) (trace_id row)) (requests d)
  then Raise IntegrityError
  else Ok {| online := online d; requests := requests d ++ [row] |}.

(** ** server.py *)

(** The process state the handlers share: the module-level [cache], the
    models directory on disk, the database, and the two Prometheus
    collectors [REQUESTS] and [LATENCY]. *)
Record World : Type := {
  cache : LRUCache.t RecommendResponse;
  models_dir : ModelsDir;
  db : Database;
  requests_total : nat;
  latency_observed : list float
}.

(** Handlers: a state transformer that may raise.  The state reached
    before the exception stays. *)
Definition M (A : Type) : Type := World -> result A * World.

Definition ret {A} (a : A) : M A := fun w => (Ok a, w).

Definition bind {A B} (m : M A) (k : A -> M B) : M B :=
  fun w =>
    match m w with
    | (Ok a, w') => k a w'
    | (Raise e, w') => (Raise e, w')
    end.

Definition lift {A} (r : result A) : M A := fun w => (r, w).

Declare Scope handler_scope.
Delimit Scope handler_scope with handler.
Notation "x <- m ;; k" := (bind m (fun x => k))
  (at level 100, m at next level, right associativity) : handler_scope.

Fixpoint mapM {A B} (f : A -> M B) (l : list A) : M (list B) :=
  match l with
  | [] => ret []
  | x :: l' =>
      (y <- f x ;;
       ys <- mapM f l' ;;
       ret (y :: ys))%handler
  end.

Definition with_cache (w : World) (c : LRUCache.t RecommendResponse) : World :=
  {| cache := c; models_dir := models_dir w; db := db w;
     requests_total := requests_total w;
     latency_observed := latency_observed w |}.

(** The process after the models directory changed under it, as when
    [train.py] saves new artifacts. *)
Definition with_models_dir (w : World) (dir : ModelsDir) : World :=
  {| cache := cache w; models_dir := dir; db := db w;
     requests_total := requests_total w;
     latency_observed := latency_observed w |}.

Definition cache_get (k : string) : M (option RecommendResponse) :=
  fun w => let '(v, c) := LRUCache.get (cache w) k in (Ok v, with_cache w c).

Definition cache_set (k : string) (v : RecommendResponse) : M unit :=
  fun w =>
    match LRUCache.set (cache w) k v with
    | Ok c => (Ok tt, with_cache w c)
    | Raise e => (Raise e, w)
    end.

Definition REQUESTS_inc : M unit :=
  fun w => (Ok tt, {| cache := cache w; models_dir := models_dir w; db := db w;
                      requests_total := S (requests_total w);
                      latency_observed := latency_observed w |}).

Definition LATENCY_observe (seconds : float) : M unit :=
  fun w => (Ok tt, {| cache := cache w; models_dir := models_dir w; db := db w;
                      requests_total := requests_total w;
                      latency_observed := latency_observed w ++ [seconds] |}).

Definition db_insert_request (row : RequestRow) : M unit :=
  fun w =>
    match insert_request (db w) row with
    | Ok d => (Ok tt, {| cache := cache w; models_dir := models_dir w; db := d;
                         requests_total := requests_total w;
                         latency_observed := latency_observed w |})
    | Raise e => (Raise e, w)
    end.

(** [glob.glob(str(model_dir / "*.joblib"))]: the names that end in
    [.joblib]; the pattern's [*] does not match a leading dot. *)
Definition glob_joblib (files : gmap string Artifact) : list string :=
  List.filter (fun n => endswith ".joblib" n && negb (startswith "." n))
              (map fst (map_to_list files)).

Definition _current_version (dir : ModelsDir) : string :=
  match dir with
  | None => "unknown"
  | Some model_dir =>
      let files := sorted_str (glob_joblib model_dir) in
      match last files with
      | None => "unknown"
      | Some fname =>
          let parts := py_split fname "__" in
          match parts with
          | _ :: part1 :: _ => py_replace part1 ".joblib" ""
          | _ => "unknown"
          end
      end
  end.

(** [value or 0.0] on an optional float: None and both zeros are falsy. *)
Definition or_zero (o : option float) : float :=
  match o with
  | Some f => if (f =? 0)%float then 0%float else f
  | None => 0%float
  end.

Definition _build_rationale (p : RecommendQuery) (action : string)
    (wps : list (string * Outcome)) : list string :=
  let r := [] in
  let r := if ydstogo p <=? 3 then r ++ ["To-go <= 3"%string] else r in
  let r := if 60 <=? yardline_100 p then r ++ ["Opp red zone field position"%string] else r in
  let r := if String.eqb action "GO" then r ++ ["Calibrated WP favors GO"%string] else r in
  let r := if String.eqb action "FG" then r ++ ["High make probability given distance"%string] else r in
  let r := if String.eqb action "PUNT" then r ++ ["Field position swing favors punt"%string] else r in
  match r with
  | [] => ["Model preference"%string]
  | _ => r
  end.

(** The sentence [_build_rationale] adds for each simulated action. *)
Definition action_sentence (action : string) : string :=
  if String.eqb action "GO" then "Calibrated WP favors GO"
  else if String.eqb action "FG" then "High make probability given distance"
  else "Field position swing favors punt".

Definition features_of (payload : RecommendQuery) : Features :=
  {| f_down := down payload;
     f_ydstogo := ydstogo payload;
     f_yardline_100 := yardline_100 payload;
     f_time_remaining := time_remaining payload;
     f_qtr := qtr payload;
     f_score_diff := score_diff payload;
     f_offense_timeouts := offense_timeouts payload;
     f_defense_timeouts := defense_timeouts payload;
     f_home := home payload;
     f_team_strength_off := Some (or_zero (team_strength_off payload));
     f_team_strength_def := Some (or_zero (team_strength_def payload)) |}.

(** [wps[k][field]]; the keys looked up are keys of [wps]. *)
Definition outcome_of (wps : list (string * Outcome)) (k : string) : result Outcome :=
  match dict_get wps k with
  | Some o => Ok o
  | None => Raise KeyError
  end.

(** [RecommendQuery(down=down, ...)] as [recommend] builds it: the optional
    fields keep their defaults. *)
Definition query_of_params
    (down ydstogo yardline_100 time_remaining qtr score_diff
       offense_timeouts defense_timeouts : Z) (home : bool) : RecommendQuery :=
  {| down := down; ydstogo := ydstogo; yardline_100 := yardline_100;
     time_remaining := time_remaining; qtr := qtr; score_diff := score_diff;
     offense_timeouts := offense_timeouts;
     defense_timeouts := defense_timeouts; home := home;
     weather_temp := None; weather_wind := None; weather_rain := None;
     possession := Some "offense"%string;
     team_strength_off := None; team_strength_def := None |}.

Section Server.
Variable np_exp : float -> float.
(** [SimpleLRUCache._key]: the BLAKE2b digest of the canonical JSON text
    of the dumped query. *)
Variable _key : RecommendQuery -> string.

Definition _infer_one (payload : RecommendQuery) (version_override : option string)
    : M RecommendResponse :=
  (let params := payload in
   cached <- cache_get (_key params) ;;
   match cached with
   | Some hit => ret hit
   | None =>
       fun w =>
       (let version :=
          match version_override with
          | Some v => if String.eqb v "" then _current_version (models_dir w) else v
          | None => _current_version (models_dir w)
          end in
        loaded_ep <- lift (load_model (models_dir w) "ep_model" version) ;;
        let '(ep_model, _, _) := loaded_ep in
        loaded_wp <- lift (load_model (models_dir w) "wp_model" version) ;;
        let '(_, calibrator, _) := loaded_wp in
        let features := features_of payload in
        wps <- lift (simulate_actions_to_wp np_exp ep_model calibrator features) ;;
        best <- lift (py_max_by (fun kv => wp (snd kv)) wps) ;;
        let best_action := fst best in
        best_outcome <- lift (outcome_of wps best_action) ;;
        let sorted_by_wp := sorted (map (fun kv => wp (snd kv)) wps) in
        let delta_wp :=
          if (2 <=? length sorted_by_wp)%nat
          then (wp best_outcome - nth (length sorted_by_wp - 2) sorted_by_wp 0)%float
          else 0%float in
        let sorted_by_ep := sorted (map (fun kv => ep (snd kv)) wps) in
        let delta_ep :=
          if (2 <=? length sorted_by_ep)%nat
          then (ep best_outcome - nth (length sorted_by_ep - 2) sorted_by_ep 0)%float
          else 0%float in
        let alt :=
          map (fun kv => {| action := fst kv; alt_wp := wp (snd kv);
                            alt_ep := ep (snd kv) |}) wps in
        let rationale := _build_rationale payload best_action wps in
        let resp :=
          {| recommendation :=
               if existsb (String.eqb best_action) ["GO"; "PUNT"; "FG"]%string
               then best_action else "GO"%string;
             delta_wp := delta_wp;
             delta_ep := delta_ep;
             alternatives := alt;
             rationale := rationale;
             uncertainty := {| std := 0.012; method := "bootstrap" |};
             version := ("2025-08-" ++ _current_version (models_dir w))%string |} in
        _ <- cache_set (_key params) resp ;;
        ret resp)%handler w
   end)%handler.

(** [GET /v1/recommend].  [trace_id] is the UUID the handler draws and
    [latency_ms] the time its clock measures; FastAPI checks the query
    parameters against their bounds before the body runs. *)
Definition recommend (trace_id : string) (latency_ms : float)
    (down ydstogo yardline_100 time_remaining qtr score_diff
       offense_timeouts defense_timeouts : Z) (home : bool)
    (model_version : option string) : M RecommendResponse :=
  (let payload :=
     query_of_params down ydstogo yardline_100 time_remaining qtr score_diff
                     offense_timeouts defense_timeouts home in
   _ <- lift (if valid_query payload then Ok tt else Raise ValidationError) ;;
   _ <- REQUESTS_inc ;;
   resp <- _infer_one payload model_version ;;
   _ <- LATENCY_observe (latency_ms / 1000)%float ;;
   _ <- db_insert_request
          {| trace_id := trace_id; params_json := payload;
             latency_ms := latency_ms; rec := recommendation resp;
             row_delta_wp := delta_wp resp |} ;;
   ret resp)%handler.

(** [POST /v1/bulk].  [elapsed] is the time the handler's clock
    measures; FastAPI validates every item while it parses the body.
    The responses of [_infer_one] are [RecommendResponse] instances, and
    the handler builds its [BulkResponse] from them after the latency is
    observed. *)
Definition bulk (elapsed : float) (req : list RecommendQuery)
    (model_version : option string) : M BulkResponse :=
  (_ <- lift (if forallb valid_query req then Ok tt else Raise ValidationError) ;;
   responses <- mapM (fun item => _infer_one item model_version) req ;;
   _ <- LATENCY_observe elapsed ;;
   lift (BulkResponse_init responses))%handler.
End Server.

(** ** The pure part of a cache miss

    What [_infer_one] computes between the cache lookup and the cache
    write, as a function of the models directory.  [infer_one_miss] below
    shows that [_infer_one] is this function wrapped in the two cache
    operations. *)
Definition compute_response (np_exp : float -> float) (dir : ModelsDir)
    (payload : RecommendQuery) (version_override : option string)
    : result RecommendResponse :=
  (let version :=
     match version_override with
     | Some v => if String.eqb v "" then _current_version dir else v
     | None => _current_version dir
     end in
   loaded_ep <- load_model dir "ep_model" version ;;
   let '(ep_model, _, _) := loaded_ep in
   loaded_wp <- load_model dir "wp_model" version ;;
   let '(_, calibrator, _) := loaded_wp in
   let features := features_of payload in
   wps <- simulate_actions_to_wp np_exp ep_model calibrator features ;;
   best <- py_max_by (fun kv => wp (snd kv)) wps ;;
   let best_action := fst best in
   best_outcome <- outcome_of wps best_action ;;
   let sorted_by_wp := sorted (map (fun kv => wp (snd kv)) wps) in
   let delta_wp :=
     if (2 <=? length sorted_by_wp)%nat
     then (wp best_outcome - nth (length sorted_by_wp - 2) sorted_by_wp 0)%float
     else 0%float in
   let sorted_by_ep := sorted (map (fun kv => ep (snd kv)) wps) in
   let delta_ep :=
     if (2 <=? length sorted_by_ep)%nat
     then (ep best_outcome - nth (length sorted_by_ep - 2) sorted_by_ep 0)%float
     else 0%float in
   let alt :=
     map (fun kv => {| action := fst kv; alt_wp := wp (snd kv);
                       alt_ep := ep (snd kv) |}) wps in
   let rationale := _build_rationale payload best_action wps in
   Ok {| recommendation :=
           if existsb (String.eqb best_action) ["GO"; "PUNT"; "FG"]%string
           then best_action else "GO"%string;
         delta_wp := delta_wp;
         delta_ep := delta_ep;
         alternatives := alt;
         rationale := rationale;
         uncertainty := {| std := 0.012; method := "bootstrap" |};
         version := ("2025-08-" ++ _current_version dir)%string |})%result.

(** Two queries that agree on every field the schema bounds, on [home]
    and on the team strengths: they may differ in the weather fields and
    in [possession] only. *)
Definition same_situation (q1 q2 : RecommendQuery) : Prop :=
  down q1 = down q2 /\ ydstogo q1 = ydstogo q2
  /\ yardline_100 q1 = yardline_100 q2
  /\ time_remaining q1 = time_remaining q2 /\ qtr q1 = qtr q2
  /\ score_diff q1 = score_diff q2
  /\ offense_timeouts q1 = offense_timeouts q2
  /\ defense_timeouts q1 = defense_timeouts q2
  /\ home q1 = home q2
  /\ team_strength_off q1 = team_strength_off q2
  /\ team_strength_def q1 = team_strength_def q2.

(** The value a handler returned, if it returned. *)
Definition returned {A} (r : result A) : option A :=
  match r with
  | Ok a => Some a
  | Raise _ => None
  end.

(** ** The simulator's arithmetic, as the specification words it

    These definitions follow the specification's formulas over the
    schema's integers; the properties below compare them with what
    [simulate_actions_to_wp] computes. *)

(** The conversion probability of the spec, keyed by the distance to go. *)
Definition p_convert (ydstogo : Z) : float :=
  if ydstogo <=? 2 then 0.65%float
  else if ydstogo <=? 4 then 0.5%float else 0.3%float.

(** The make probability as the spec words it: a clamp of a linear
    function of the kick distance. *)
Definition clamp (x lo hi : float) : float :=
  if (x <? lo)%float then lo else if (hi <? x)%float then hi else x.

Definition p_make_spec (yardline : Z) : float :=
  clamp (0.95 - 0.01 * float_of_Z (Z.max 0 ((118 - yardline) - 25)))%float
        0.05 0.98.

(** Expected points of the three actions for a query [q], with the EP
    model's yardline slot written out. *)
Definition ep_go_spec (ep_model : predictor) (q : RecommendQuery) : float :=
  let base := features_of q in
  (p_convert (ydstogo q)
     * ep_model (ep_features base
                   (float_of_Z (Z.min 99 (yardline_100 q + Z.min 6 (ydstogo q + 1)))))
   + (1 - p_convert (ydstogo q))
     * ep_model (ep_features base (100 - float_of_Z (yardline_100 q))))%float.

Definition ep_punt_spec (ep_model : predictor) (q : RecommendQuery) : float :=
  let base := features_of q in
  ep_model (ep_features base (100 - float_of_Z (Z.max 1 (yardline_100 q - 38))))%float.

Definition ep_fg_spec (ep_model : predictor) (q : RecommendQuery) : float :=
  let base := features_of q in
  (p_make_spec (yardline_100 q)
     * (3 + ep_model (ep_features base (100 - 75)))
   + (1 - p_make_spec (yardline_100 q))
     * ep_model (ep_features base (100 - float_of_Z (Z.max 1 (yardline_100 q - 7)))))%float.

(** ** Contracts of the numeric collaborators

    The calibrated classifier returns a probability, and [np.exp] of a
    number is a non-negative number (possibly [+inf]).  The properties
    of the win probabilities below are stated under these two contracts,
    which rule out NaN as an answer of either. *)
Definition probability_valued (m : predictor) : Prop :=
  forall x, (0 <=? m x)%float = true /\ (m x <=? 1)%float = true.

Definition exp_nonneg (np_exp : float -> float) : Prop :=
  forall x, is_nan x = false -> (0 <=? np_exp x)%float = true.

(** Every calibrator stored in the models directory is a probability. *)
Definition calibrators_probability_valued (dir : ModelsDir) : Prop :=
  forall files fname art c,
    dir = Some files -> files !! fname = Some art ->
    art_calibrator art = Some c -> probability_valued c.

(** The closed interval the blended win probability is clamped to. *)
Definition in_wp_range (v : float) : Prop :=
  (0.01 <=? v)%float = true /\ (v <=? 0.99)%float = true.

(** Classes of floats, read off their IEEE specification. *)
Definition sf_finite (x : spec_float) : Prop :=
  match x with
  | S754_zero _ | S754_finite _ _ _ => True
  | _ => False
  end.

Definition not_nan (f : float) : Prop := Prim2SF f <> S754_nan.
Definition finite_float (f : float) : Prop := sf_finite (Prim2SF f).
Definition positive_float (f : float) : Prop :=
  exists m e, Prim2SF f = S754_finite false m e.

(** ** A concrete deployment, to run the definitions on

    The score differential of the situations below is 0, so the only
    argument [np.exp] ever receives in these runs is [-0.0], where it
    returns exactly 1.  [exp_at_zero] stands for [np.exp] on that
    argument. *)
Module Scenario.
Definition exp_at_zero (x : float) : float := 1%float.

(** A stand-in for the digest: the decimal text of the integer fields.
    It tells apart the situations used below. *)
Definition key (q : RecommendQuery) : string :=
  String.concat ","
    [ pretty (down q); pretty (ydstogo q); pretty (yardline_100 q);
      pretty (time_remaining q); pretty (qtr q); pretty (score_diff q);
      pretty (offense_timeouts q); pretty (defense_timeouts q) ].

(** 4th and 1 at midfield, two minutes left, tied. *)
Definition fourth_and_one : RecommendQuery :=
  {| down := 4; ydstogo := 1; yardline_100 := 50; time_remaining := 120;
     qtr := 4; score_diff := 0; offense_timeouts := 1; defense_timeouts := 2;
     home := true; weather_temp := None; weather_wind := None;
     weather_rain := None; possession := Some "offense"%string;
     team_strength_off := None; team_strength_def := None |}.

(** The same situation in a rainy, windy game. *)
Definition fourth_and_one_rain : RecommendQuery :=
  {| down := 4; ydstogo := 1; yardline_100 := 50; time_remaining := 120;
     qtr := 4; score_diff := 0; offense_timeouts := 1; defense_timeouts := 2;
     home := true; weather_temp := Some 41%float; weather_wind := Some 18%float;
     weather_rain := Some true; possession := Some "defense"%string;
     team_strength_off := None; team_strength_def := None |}.

(** 4th and 8 from the same spot. *)
Definition fourth_and_eight : RecommendQuery :=
  {| down := 4; ydstogo := 8; yardline_100 := 50; time_remaining := 120;
     qtr := 4; score_diff := 0; offense_timeouts := 1; defense_timeouts := 2;
     home := true; weather_temp := None; weather_wind := None;
     weather_rain := None; possession := Some "offense"%string;
     team_strength_off := None; team_strength_def := None |}.

(** An EP regressor that is a single stump on the yardline feature:
    1 point when the possessor is more than 80 yards from the goal it
    attacks, 0 otherwise. *)
Definition ep_stump : predictor :=
  fun x =>
    match x !! 2%nat with
    | Some (NFloat y) => if (80 <? y)%float then 1%float else 0%float
    | _ => 0%float
    end.

(** An EP regressor that returns its distance-to-go feature. *)
Definition ep_by_distance : predictor :=
  fun x =>
    match x !! 1%nat with
    | Some (NInt t) => float_of_Z t
    | _ => 0%float
    end.

(** A WP classifier with all weights zero: every probability is 0.5. *)
Definition wp_flat : predictor := fun _ => 0.5%float.

(** A WP classifier that only reads the possession feature: certain
    loss with the ball, certain win without it. *)
Definition wp_defensive : predictor :=
  fun x =>
    match x !! 9%nat with
    | Some (NInt 1) => 0%float
    | _ => 1%float
    end.

(** The expected points the simulator returns for GO, under [wp_flat]. *)
Definition go_ep (ep_model : predictor) (q : RecommendQuery) : option float :=
  match simulate_actions_to_wp exp_at_zero ep_model (Some wp_flat) (features_of q) with
  | Ok wps => ep <$> dict_get wps "GO"
  | Raise _ => None
  end.

Definition train (dir : ModelsDir) (version : string) (ep wp : predictor)
    : ModelsDir :=
  save_model (save_model dir "ep_model" version ep None [])
             "wp_model" version wp (Some wp) [].

(** The models directory after one training run, and after a second. *)
Definition dir_july : ModelsDir := train None "2025-07" ep_stump wp_flat.
Definition dir_september : ModelsDir :=
  train dir_july "2025-09" ep_stump wp_defensive.

Definition boot (dir : ModelsDir) : World :=
  {| cache := {| LRUCache.maxsize := 200000; LRUCache.data := [] |};
     models_dir := dir;
     db := {| online := true; requests := [] |};
     requests_total := 0;
     latency_observed := [] |}.

Definition with_db_offline (w : World) : World :=
  {| cache := cache w; models_dir := models_dir w;
     db := {| online := false; requests := requests (db w) |};
     requests_total := requests_total w;
     latency_observed := latency_observed w |}.
End Scenario.

(** ** Proof tactics *)

(** Permutations of a list of three elements. *)
Ltac perm3 :=
  solve [ reflexivity
        | apply perm_swap
        | apply perm_skip, perm_swap
        | eapply perm_trans; [ apply perm_swap | apply perm_skip, perm_swap ]
        | eapply perm_trans; [ apply perm_skip, perm_swap | apply perm_swap ]
        | eapply perm_trans;
          [ apply perm_swap
          | eapply perm_trans; [ apply perm_skip, perm_swap | apply perm_swap ] ] ].

(** * Properties *)

(** ** Checking a decidable fact on every integer of a range *)

Lemma forall_range (P : Z -> bool) (lo n : Z) :
  forallb P (seqZ lo n) = true ->
  forall z, lo <= z < lo + n -> P z = true.
Proof.
  intros Hall z Hz.
  rewrite forallb_forall in Hall.
  apply Hall, list_elem_of_In, elem_of_seqZ, Hz.
Qed.

Lemma float_eqb_eq (x y : float) : Leibniz.eqb x y = true -> x = y.
Proof. apply FloatAxioms.Leibniz.eqb_spec. Qed.

(** ** The field arithmetic of the simulator on valid inputs *)

(** Ints within the bounds of the schema convert to floats without
    overflow. *)
Lemma py_float_yards (z : Z) :
  0 <= z <= 100 -> py_float z = Ok (float_of_Z z).
Proof.
  intros Hz. unfold py_float.
  assert (H : negb (is_infinity (float_of_Z z)) = true).
  { apply (forall_range (fun z => negb (is_infinity (float_of_Z z))) 0 101);
      [ vm_compute; reflexivity | lia ]. }
  apply negb_true_iff in H. rewrite H. reflexivity.
Qed.

Lemma p_conv_float (t : Z) :
  1 <= t <= 100 ->
  (if (float_of_Z t <=? 2)%float then 0.65%float
   else if (float_of_Z t <=? 4)%float then 0.5%float else 0.3%float)
  = p_convert t.
Proof.
  intros Ht. apply float_eqb_eq.
  apply (forall_range
           (fun t => Leibniz.eqb
              (if (float_of_Z t <=? 2)%float then 0.65%float
               else if (float_of_Z t <=? 4)%float then 0.5%float else 0.3%float)
              (p_convert t)) 1 100);
    [ vm_compute; reflexivity | lia ].
Qed.

Lemma go_success_yardline (y t : Z) :
  1 <= y <= 99 -> 1 <= t <= 100 ->
  py_min 99 (float_of_Z y + py_min 6 (float_of_Z t + 1))%float
  = float_of_Z (Z.min 99 (y + Z.min 6 (t + 1))).
Proof.
  intros Hy Ht. apply float_eqb_eq.
  apply (forall_range
           (fun t => Leibniz.eqb
              (py_min 99 (float_of_Z y + py_min 6 (float_of_Z t + 1))%float)
              (float_of_Z (Z.min 99 (y + Z.min 6 (t + 1))))) 1 100); [ | lia ].
  apply (forall_range
           (fun y => forallb (fun t => Leibniz.eqb
              (py_min 99 (float_of_Z y + py_min 6 (float_of_Z t + 1))%float)
              (float_of_Z (Z.min 99 (y + Z.min 6 (t + 1))))) (seqZ 1 100)) 1 99);
    [ vm_compute; reflexivity | lia ].
Qed.

Lemma punt_yardline (y : Z) :
  1 <= y <= 99 ->
  py_max 1 (float_of_Z y - 38)%float = float_of_Z (Z.max 1 (y - 38)).
Proof.
  intros Hy. apply float_eqb_eq.
  apply (forall_range
           (fun y => Leibniz.eqb (py_max 1 (float_of_Z y - 38)%float)
                                 (float_of_Z (Z.max 1 (y - 38)))) 1 99);
    [ vm_compute; reflexivity | lia ].
Qed.

Lemma fg_miss_yardline (y : Z) :
  1 <= y <= 99 ->
  py_max 1 (float_of_Z y - 7)%float = float_of_Z (Z.max 1 (y - 7)).
Proof.
  intros Hy. apply float_eqb_eq.
  apply (forall_range
           (fun y => Leibniz.eqb (py_max 1 (float_of_Z y - 7)%float)
                                 (float_of_Z (Z.max 1 (y - 7)))) 1 99);
    [ vm_compute; reflexivity | lia ].
Qed.

Lemma p_make_float (y : Z) :
  1 <= y <= 99 ->
  np_clip (0.95 - 0.01 * py_max 0 (118 - float_of_Z y - 25))%float 0.05 0.98
  = p_make_spec y.
Proof.
  intros Hy. apply float_eqb_eq.
  apply (forall_range
           (fun y => Leibniz.eqb
              (np_clip (0.95 - 0.01 * py_max 0 (118 - float_of_Z y - 25))%float
                       0.05 0.98)
              (p_make_spec y)) 1 99);
    [ vm_compute; reflexivity | lia ].
Qed.

Lemma valid_query_bounds (q : RecommendQuery) :
  valid_query q = true ->
  1 <= down q <= 4 /\ 1 <= ydstogo q <= 100 /\ 1 <= yardline_100 q <= 99
  /\ 0 <= time_remaining q /\ 1 <= qtr q <= 5
  /\ 0 <= offense_timeouts q <= 3 /\ 0 <= defense_timeouts q <= 3.
Proof.
  unfold valid_query. rewrite !andb_true_iff, !Z.leb_le. lia.
Qed.

(** What a successful run of the simulator returns, with the three
    expected-points values written over the schema's integers. *)
Section SimulatorShape.
Variable np_exp : float -> float.
Variable ep_model : predictor.
Variable wp_calibrated : option predictor.
Variable q : RecommendQuery.
Hypothesis q_valid : valid_query q = true.

Let base := features_of q.

Lemma simulate_shape (wps : list (string * Outcome)) :
  simulate_actions_to_wp np_exp ep_model wp_calibrated base = Ok wps ->
  exists wp_go wp_punt wp_fg,
    _ep_to_wp np_exp wp_calibrated base (ep_go_spec ep_model q) 1 = Ok wp_go
    /\ _ep_to_wp np_exp wp_calibrated base (ep_punt_spec ep_model q) 0 = Ok wp_punt
    /\ _ep_to_wp np_exp wp_calibrated base (ep_fg_spec ep_model q) 0 = Ok wp_fg
    /\ wps = [ ("GO"%string, {| wp := wp_go; ep := ep_go_spec ep_model q |});
               ("PUNT"%string, {| wp := wp_punt; ep := ep_punt_spec ep_model q |});
               ("FG"%string, {| wp := wp_fg; ep := ep_fg_spec ep_model q |}) ].
Proof.
  destruct (valid_query_bounds q q_valid) as (_ & Ht & Hy & _).
  unfold simulate_actions_to_wp, _predict_ep_with_possession.
  cbn [base features_of f_yardline_100 f_ydstogo].
  rewrite (py_float_yards (yardline_100 q)) by lia.
  cbn [rbind].
  replace (ydstogo q =? 0) with false by (symmetry; apply Z.eqb_neq; lia).
  rewrite (py_float_yards (ydstogo q)) by lia.
  cbn [rbind Z.eqb Pos.eqb].
  rewrite (p_conv_float (ydstogo q)) by lia.
  rewrite (go_success_yardline (yardline_100 q) (ydstogo q)) by lia.
  rewrite (punt_yardline (yardline_100 q)) by lia.
  rewrite (fg_miss_yardline (yardline_100 q)) by lia.
  rewrite (p_make_float (yardline_100 q)) by lia.
  fold base.
  change (_ * ep_model _ + _ * ep_model _)%float with (ep_go_spec ep_model q) at 1.
  change (ep_model (ep_features base (100 - float_of_Z (Z.max 1 (yardline_100 q - 38)))%float))
    with (ep_punt_spec ep_model q).
  change (_ * (3 + _) + _ * ep_model _)%float with (ep_fg_spec ep_model q).
  intros H.
  destruct (_ep_to_wp np_exp wp_calibrated base (ep_go_spec ep_model q) 1)
    as [wp_go|] eqn:Hgo; [ | discriminate H ].
  destruct (_ep_to_wp np_exp wp_calibrated base (ep_punt_spec ep_model q) 0)
    as [wp_punt|] eqn:Hpunt; [ | discriminate H ].
  destruct (_ep_to_wp np_exp wp_calibrated base (ep_fg_spec ep_model q) 0)
    as [wp_fg|] eqn:Hfg; [ | discriminate H ].
  cbn [rbind] in H. injection H as <-.
  exists wp_go, wp_punt, wp_fg. auto.
Qed.
End SimulatorShape.

(** ** Expected points of the three actions *)

(** C1. For a valid situation, the expected points the simulator returns
    for GO are [p_convert * EP(success) + (1 - p_convert) * EP(failure)]:
    [p_convert] is 0.65, 0.5 or 0.3 by the distance to go; the success
    branch asks the EP model at yardline [min 99 (yardline + min 6
    (ydstogo + 1))], the failure branch at the same yardline seen from the
    other side, [100 - yardline]. *)
Theorem go_expected_points
    (np_exp : float -> float) (ep_model : predictor)
    (wp_calibrated : option predictor) (q : RecommendQuery)
    (wps : list (string * Outcome)) :
  valid_query q = true ->
  simulate_actions_to_wp np_exp ep_model wp_calibrated (features_of q) = Ok wps ->
  exists o,
    dict_get wps "GO" = Some o
    /\ ep o =
       (let p_convert := p_convert (ydstogo q) in
        let success_yardline :=
          float_of_Z (Z.min 99 (yardline_100 q + Z.min 6 (ydstogo q + 1))) in
        let failure_yardline := 100 - float_of_Z (yardline_100 q) in
        p_convert * ep_model (ep_features (features_of q) success_yardline)
        + (1 - p_convert) * ep_model (ep_features (features_of q) failure_yardline))%float.
Proof.
  intros Hvalid Hrun.
  destruct (simulate_shape np_exp ep_model wp_calibrated q Hvalid wps Hrun)
    as (wp_go & wp_punt & wp_fg & _ & _ & _ & ->).
  exists {| wp := wp_go; ep := ep_go_spec ep_model q |}.
  split; reflexivity.
Qed.

(** [go_expected_points] for 4th-and-1 at midfield under the July models. *)
Lemma go_expected_points_midfield :
  let q := Scenario.fourth_and_one in
  let wps :=
    [ ("GO"%string, {| wp := 0.59299999999999997; ep := 0 |});
      ("PUNT"%string, {| wp := 0.55699999999999994; ep := 1 |});
      ("FG"%string, {| wp := 0.55699999999999994; ep := 1.5600000000000001 |}) ] in
  exists o,
    dict_get wps "GO" = Some o
    /\ ep o =
       (0.65 * Scenario.ep_stump (ep_features (features_of q) 52)
        + (1 - 0.65) * Scenario.ep_stump (ep_features (features_of q) (100 - 50)))%float.
Proof.
  exact (go_expected_points Scenario.exp_at_zero Scenario.ep_stump
           (Some Scenario.wp_flat) Scenario.fourth_and_one _ eq_refl eq_refl).
Defined.

(** C2. For a valid situation, the expected points the simulator returns
    for FG are [p_make * (3 + EP(kickoff)) + (1 - p_make) * EP(miss)] with
    [p_make = clamp (0.95 - 0.01 * max 0 ((118 - yardline) - 25)) 0.05 0.98];
    both branches flip possession: the make branch asks the EP model at
    offense-view yardline 75, the miss branch at offense-view yardline
    [max 1 (yardline - 7)]. *)
Theorem fg_expected_points
    (np_exp : float -> float) (ep_model : predictor)
    (wp_calibrated : option predictor) (q : RecommendQuery)
    (wps : list (string * Outcome)) :
  valid_query q = true ->
  simulate_actions_to_wp np_exp ep_model wp_calibrated (features_of q) = Ok wps ->
  exists o,
    dict_get wps "FG" = Some o
    /\ ep o =
       (let p_make := p_make_spec (yardline_100 q) in
        let miss_yardline := float_of_Z (Z.max 1 (yardline_100 q - 7)) in
        p_make * (3 + _predict_ep_with_possession ep_model (features_of q) 75 0)
        + (1 - p_make)
          * _predict_ep_with_possession ep_model (features_of q) miss_yardline 0)%float
    /\ (forall y, _predict_ep_with_possession ep_model (features_of q) y 0
                  = ep_model (ep_features (features_of q) (100 - y)%float)).
Proof.
  intros Hvalid Hrun.
  destruct (simulate_shape np_exp ep_model wp_calibrated q Hvalid wps Hrun)
    as (wp_go & wp_punt & wp_fg & _ & _ & _ & ->).
  exists {| wp := wp_fg; ep := ep_fg_spec ep_model q |}.
  repeat split; reflexivity.
Qed.

(** [fg_expected_points] for 4th-and-1 at midfield under the July models. *)
Lemma fg_expected_points_midfield :
  let q := Scenario.fourth_and_one in
  let wps :=
    [ ("GO"%string, {| wp := 0.59299999999999997; ep := 0 |});
      ("PUNT"%string, {| wp := 0.55699999999999994; ep := 1 |});
      ("FG"%string, {| wp := 0.55699999999999994; ep := 1.5600000000000001 |}) ] in
  exists o,
    dict_get wps "FG" = Some o
    /\ ep o =
       (let p_make := clamp (0.95 - 0.01 * 43) 0.05 0.98 in
        p_make * (3 + _predict_ep_with_possession Scenario.ep_stump (features_of q) 75 0)
        + (1 - p_make)
          * _predict_ep_with_possession Scenario.ep_stump (features_of q) 43 0)%float
    /\ (forall y, _predict_ep_with_possession Scenario.ep_stump (features_of q) y 0
                  = Scenario.ep_stump (ep_features (features_of q) (100 - y)%float)).
Proof.
  exact (fg_expected_points Scenario.exp_at_zero Scenario.ep_stump
           (Some Scenario.wp_flat) Scenario.fourth_and_one _ eq_refl eq_refl).
Defined.

(** ** The two paths of [_infer_one] *)

Section InferOne.
Variable np_exp : float -> float.
Variable _key : RecommendQuery -> string.

(** A hit returns the cached response and only marks the entry as used. *)
Lemma infer_one_hit (q : RecommendQuery) (ov : option string) (w : World)
    (hit : RecommendResponse) :
  LRUCache.peek (cache w) (_key q) = Some hit ->
  _infer_one np_exp _key q ov w
  = (Ok hit, with_cache w (snd (LRUCache.get (cache w) (_key q)))).
Proof.
  intros Hpeek.
  unfold _infer_one, bind, cache_get, LRUCache.get.
  rewrite Hpeek. reflexivity.
Qed.

(** A miss computes the response from the models directory and stores it. *)
Lemma infer_one_miss (q : RecommendQuery) (ov : option string) (w : World) :
  LRUCache.peek (cache w) (_key q) = None ->
  _infer_one np_exp _key q ov w
  = match compute_response np_exp (models_dir w) q ov with
    | Ok resp =>
        match LRUCache.set (cache w) (_key q) resp with
        | Ok c => (Ok resp, with_cache w c)
        | Raise e => (Raise e, w)
        end
    | Raise e => (Raise e, w)
    end.
Proof.
  intros Hpeek.
  unfold _infer_one, bind, cache_get, LRUCache.get.
  rewrite Hpeek.
  assert (Hw : with_cache w (cache w) = w) by (destruct w; reflexivity).
  rewrite Hw.
  unfold compute_response, lift, rbind.
  destruct (load_model (models_dir w) "ep_model" _) as [[[ep_model ?] ?]|]; [ | reflexivity ].
  destruct (load_model (models_dir w) "wp_model" _) as [[[? calibrator] ?]|]; [ | reflexivity ].
  destruct (simulate_actions_to_wp _ _ _ _) as [wps|]; [ | reflexivity ].
  destruct (py_max_by _ wps) as [best|]; [ | reflexivity ].
  destruct (outcome_of wps (fst best)) as [best_outcome|]; [ | reflexivity ].
  unfold cache_set, ret.
  destruct (LRUCache.set _ _ _); reflexivity.
Qed.
End InferOne.

Section InferOneFrame.
Variable np_exp : float -> float.
Variable _key : RecommendQuery -> string.

(** Writing a fresh key succeeds or fails by the capacity alone. *)
Lemma lru_set_fresh {V} (c : LRUCache.t V) (k : string) (v : V) :
  LRUCache.peek c k = None ->
  LRUCache.set c k v
  = if LRUCache.maxsize c <? 1 then Raise ValueError
    else Ok {| LRUCache.maxsize := LRUCache.maxsize c;
               LRUCache.data :=
                 LRUCache.evict (length (LRUCache.data c)) (LRUCache.maxsize c)
                                (LRUCache.data c) ++ [(k, v)] |}.
Proof. intros Hpeek. unfold LRUCache.set. rewrite Hpeek. reflexivity. Qed.

(** [_infer_one] touches nothing but the cache. *)
Lemma infer_one_frame (q : RecommendQuery) (ov : option string) (w : World) :
  let w' := snd (_infer_one np_exp _key q ov w) in
  models_dir w' = models_dir w /\ db w' = db w
  /\ requests_total w' = requests_total w
  /\ latency_observed w' = latency_observed w.
Proof.
  destruct (LRUCache.peek (cache w) (_key q)) as [hit|] eqn:Hpeek.
  - rewrite (infer_one_hit np_exp _key q ov w hit Hpeek). cbn. auto.
  - rewrite (infer_one_miss np_exp _key q ov w Hpeek).
    destruct (compute_response _ _ _ _); [ | cbn; auto ].
    destruct (LRUCache.set _ _ _); cbn; auto.
Qed.

Lemma compute_response_same_situation (dir : ModelsDir)
    (q1 q2 : RecommendQuery) (ov : option string) :
  same_situation q1 q2 ->
  compute_response np_exp dir q1 ov = compute_response np_exp dir q2 ov.
Proof.
  intros (Hd & Ht & Hy & Htr & Hq & Hs & Ho & Hdt & Hh & Hso & Hsd).
  assert (Hf : features_of q1 = features_of q2).
  { unfold features_of. congruence. }
  assert (Hr : forall a wps, _build_rationale q1 a wps = _build_rationale q2 a wps).
  { intros a wps. unfold _build_rationale. rewrite Ht, Hy. reflexivity. }
  unfold compute_response. rewrite Hf.
  destruct (load_model dir "ep_model" _) as [[[ep_model ?] ?]|]; [ | reflexivity ].
  destruct (load_model dir "wp_model" _) as [[[? calibrator] ?]|]; [ | reflexivity ].
  cbn [rbind].
  destruct (simulate_actions_to_wp _ _ _ _) as [wps|]; [ | reflexivity ].
  cbn [rbind].
  destruct (py_max_by _ wps) as [best|]; [ | reflexivity ].
  cbn [rbind].
  destruct (outcome_of wps (fst best)) as [best_outcome|]; [ | reflexivity ].
  cbn [rbind]. rewrite Hr. reflexivity.
Qed.
End InferOneFrame.

(** ** Inputs that never reach the simulator *)

(** C10. Two valid queries that differ only in the weather fields and in
    [possession] get the same computed answer: on a cache miss, in the
    same process state, [_infer_one] returns the same response (or raises
    the same exception) for both. *)
Theorem weather_and_possession_ignored
    (np_exp : float -> float) (_key : RecommendQuery -> string)
    (q1 q2 : RecommendQuery) (ov : option string) (w : World) :
  valid_query q1 = true -> valid_query q2 = true ->
  same_situation q1 q2 ->
  LRUCache.peek (cache w) (_key q1) = None ->
  LRUCache.peek (cache w) (_key q2) = None ->
  fst (_infer_one np_exp _key q1 ov w) = fst (_infer_one np_exp _key q2 ov w).
Proof.
  intros _ _ Hsame Hmiss1 Hmiss2.
  rewrite (infer_one_miss np_exp _key q1 ov w Hmiss1).
  rewrite (infer_one_miss np_exp _key q2 ov w Hmiss2).
  rewrite (compute_response_same_situation np_exp (models_dir w) q1 q2 ov Hsame).
  destruct (compute_response np_exp (models_dir w) q2 ov) as [resp|]; [ | reflexivity ].
  rewrite (lru_set_fresh _ _ _ Hmiss1), (lru_set_fresh _ _ _ Hmiss2).
  destruct (LRUCache.maxsize (cache w) <? 1); reflexivity.
Qed.

(** [weather_and_possession_ignored] for 4th-and-1 at midfield, in fair
    weather and in rain. *)
Lemma weather_and_possession_ignored_midfield :
  fst (_infer_one Scenario.exp_at_zero Scenario.key Scenario.fourth_and_one
                  None (Scenario.boot Scenario.dir_july))
  = fst (_infer_one Scenario.exp_at_zero Scenario.key Scenario.fourth_and_one_rain
                    None (Scenario.boot Scenario.dir_july)).
Proof.
  apply weather_and_possession_ignored.
  - reflexivity.
  - reflexivity.
  - unfold same_situation; cbn; repeat split; reflexivity.
  - reflexivity.
  - reflexivity.
Defined.

(** ** The cache and the model-version override *)

(** C6, as the code has it. A query with a cached result gets that cached
    result back whatever model-version override the call passes and
    whatever the models directory holds by then: the cache is keyed by the
    query alone, and the override is read only on a miss. *)
Theorem cached_result_ignores_override
    (np_exp : float -> float) (_key : RecommendQuery -> string)
    (q : RecommendQuery) (w : World) (hit : RecommendResponse) :
  LRUCache.peek (cache w) (_key q) = Some hit ->
  forall (v : string) (dir : ModelsDir),
    fst (_infer_one np_exp _key q (Some v) (with_models_dir w dir)) = Ok hit.
Proof.
  intros Hpeek v dir.
  rewrite (infer_one_hit np_exp _key q (Some v) (with_models_dir w dir) hit Hpeek).
  reflexivity.
Qed.

(** [cached_result_ignores_override] once the answer for 4th-and-1 at
    midfield is cached. *)
Lemma cached_result_ignores_override_midfield :
  let infer := _infer_one Scenario.exp_at_zero Scenario.key in
  let w := snd (infer Scenario.fourth_and_one None (Scenario.boot Scenario.dir_july)) in
  exists hit,
    LRUCache.peek (cache w) (Scenario.key Scenario.fourth_and_one) = Some hit
    /\ forall v dir,
         fst (infer Scenario.fourth_and_one (Some v) (with_models_dir w dir)) = Ok hit.
Proof.
  eexists. split.
  - vm_compute. reflexivity.
  - apply (cached_result_ignores_override Scenario.exp_at_zero Scenario.key).
    vm_compute. reflexivity.
Defined.

(** C6, as claimed, fails. The July models answer GO and the answer is
    cached; the September models are then saved; a call that names
    ["2025-09"] still gets the July answer, although computing with the
    September models gives PUNT. *)
Lemma override_does_not_bypass_cache :
  let infer := _infer_one Scenario.exp_at_zero Scenario.key in
  let q := Scenario.fourth_and_one in
  let w := snd (infer q None (Scenario.boot Scenario.dir_july)) in
  let retrained := with_models_dir w Scenario.dir_september in
  (recommendation <$> returned (fst (infer q (Some "2025-09"%string) retrained)),
   version <$> returned (fst (infer q (Some "2025-09"%string) retrained)))
  = (Some "GO"%string, Some "2025-08-2025-07"%string)
  /\ recommendation
       <$> returned (compute_response Scenario.exp_at_zero Scenario.dir_september
                                      q (Some "2025-09"%string))
     = Some "PUNT"%string.
Proof. split; vm_compute; reflexivity. Qed.

(** ** Bulk requests *)

Section Bulk.
Variable np_exp : float -> float.
Variable _key : RecommendQuery -> string.
Variable ov : option string.

Let infer (item : RecommendQuery) : M RecommendResponse :=
  _infer_one np_exp _key item ov.


Lemma mapM_in_order {A B} (f : A -> M B) (l : list A) (w w' : World) (rs : list B) :
  mapM f l w = (Ok rs, w') ->
  Forall2 (fun x r => exists wi, fst (f x wi) = Ok r) l rs.
Proof.
  revert w w' rs. induction l as [|x l IH]; intros w w' rs.
  - cbn. intros [= <- _]. constructor.
  - cbn [mapM]. unfold bind, ret.
    destruct (f x w) as [[y|e] w1] eqn:Hx; [ | discriminate ].
    destruct (mapM f l w1) as [[ys|e] w2] eqn:Hl; [ | discriminate ].
    intros [= <- _]. constructor.
    + exists w. rewrite Hx. reflexivity.
    + apply (IH w1 w2). exact Hl.
Qed.

End Bulk.

(** [BulkResponse] only accepts the empty list of responses. *)
Lemma BulkResponse_init_cases (values : list RecommendResponse) :
  BulkResponse_init values
  = match values with
    | [] => Ok {| items := [] |}
    | _ :: _ => Raise ValidationError
    end.
Proof. destruct values; reflexivity. Qed.




(** ** Telemetry *)

(** C8, as the code has it. The insert into the [requests] ledger is part
    of the request: when the recommendation was computed and the insert
    raises, [recommend] raises that exception and returns no response. *)
Theorem telemetry_failure_fails_request
    (np_exp : float -> float) (_key : RecommendQuery -> string)
    (trace : string) (latency : float)
    (dn togo yl secs quarter score off_to def_to : Z) (at_home : bool)
    (model_version : option string) (w : World)
    (resp : RecommendResponse) (e : exn) :
  let payload :=
    query_of_params dn togo yl secs quarter score off_to def_to at_home in
  valid_query payload = true ->
  fst (_infer_one np_exp _key payload model_version (snd (REQUESTS_inc w))) = Ok resp ->
  insert_request (db w)
    {| trace_id := trace; params_json := payload; latency_ms := latency;
       rec := recommendation resp; row_delta_wp := delta_wp resp |} = Raise e ->
  fst (recommend np_exp _key trace latency dn togo yl secs quarter score
                 off_to def_to at_home model_version w) = Raise e.
Proof.
  intros payload Hvalid Hinfer Hinsert.
  unfold recommend. fold payload.
  unfold bind at 1. unfold lift. rewrite Hvalid.
  unfold bind at 1.
  destruct (REQUESTS_inc w) as [[[]|e0] w0] eqn:Hinc; [ | discriminate Hinc ].
  cbn [snd] in Hinfer.
  assert (Hdb0 : db w0 = db w).
  { unfold REQUESTS_inc in Hinc. injection Hinc as <-. reflexivity. }
  pose proof (infer_one_frame np_exp _key payload model_version w0) as (_ & Hdb & _).
  unfold bind at 1.
  destruct (_infer_one np_exp _key payload model_version w0) as [[r|e1] w1];
    cbn [fst snd] in Hinfer, Hdb; [ | discriminate Hinfer ].
  injection Hinfer as ->.
  unfold bind, LATENCY_observe, db_insert_request. cbn [db].
  rewrite Hdb, Hdb0, Hinsert. reflexivity.
Qed.

(** [telemetry_failure_fails_request] with the database unreachable. *)
Lemma telemetry_failure_fails_request_midfield :
  fst (recommend Scenario.exp_at_zero Scenario.key "trace-1" 3.5
                 4 1 50 120 4 0 1 2 true None
                 (Scenario.with_db_offline (Scenario.boot Scenario.dir_july)))
  = Raise OperationalError.
Proof.
  eapply (telemetry_failure_fails_request Scenario.exp_at_zero Scenario.key).
  - reflexivity.
  - vm_compute. reflexivity.
  - reflexivity.
Defined.

(** C8, as claimed, fails. With the database unreachable, the
    recommendation for 4th-and-1 is computed (GO), and the request ends in
    OperationalError instead of returning it. *)
Lemma telemetry_is_not_best_effort :
  let w := Scenario.with_db_offline (Scenario.boot Scenario.dir_july) in
  recommendation
    <$> returned (fst (_infer_one Scenario.exp_at_zero Scenario.key
                                  Scenario.fourth_and_one None w))
  = Some "GO"%string
  /\ fst (recommend Scenario.exp_at_zero Scenario.key "trace-1" 3.5
                    4 1 50 120 4 0 1 2 true None w)
     = Raise OperationalError.
Proof. split; vm_compute; reflexivity. Qed.

(** ** The reported model version *)

(** C5 at a failing input. The directory holds the July and the September
    artifacts; a request that names ["2025-07"] is answered by the July
    models (GO; the September models answer PUNT), and the response
    reports the newest version on disk, ["2025-09"], not the one named. *)
Lemma override_version_not_reported :
  let r :=
    fst (_infer_one Scenario.exp_at_zero Scenario.key Scenario.fourth_and_one
                    (Some "2025-07"%string) (Scenario.boot Scenario.dir_september)) in
  (recommendation <$> returned r, version <$> returned r)
  = (Some "GO"%string, Some "2025-08-2025-09"%string).
Proof. vm_compute. reflexivity. Qed.

(** ** The two deltas *)

(** C3 at a failing input. For 4th-and-1 at midfield under the July
    models, GO has the best win probability and the lowest expected
    points; the response's [delta_ep] is GO's expected points minus the
    second-largest, -1, not the gap 0.56 between the two largest. *)
Lemma delta_ep_is_not_the_ep_gap :
  let r :=
    fst (_infer_one Scenario.exp_at_zero Scenario.key Scenario.fourth_and_one
                    None (Scenario.boot Scenario.dir_july)) in
  (recommendation <$> returned r,
   map alt_ep <$> (alternatives <$> returned r),
   delta_ep <$> returned r)
  = (Some "GO"%string, Some [0; 1; 1.5600000000000001]%float, Some (-1)%float).
Proof. vm_compute. reflexivity. Qed.

(** ** Binary64 arithmetic never invents a NaN here

    The facts below are read off the IEEE specification [SpecFloat] that
    the primitive floats obey: rounding a non-negative mantissa never
    yields NaN, and a product of a constant below 2 with a probability
    does not overflow. *)

Lemma shr_1_bounds (mrs : shr_record) :
  0 <= shr_m mrs -> 0 <= shr_m (shr_1 mrs) <= shr_m mrs.
Proof.
  destruct mrs as [m r s]. destruct m as [|p|p]; cbn; try lia.
  destruct p; cbn; lia.
Qed.

Lemma iter_shr_1_bounds (p : positive) :
  forall mrs, 0 <= shr_m mrs -> 0 <= shr_m (SpecFloat.iter_pos shr_1 p mrs) <= shr_m mrs.
Proof.
  induction p as [p IH|p IH|]; intros mrs H; cbn.
  - pose proof (shr_1_bounds mrs H) as H1.
    pose proof (IH (shr_1 mrs) ltac:(lia)) as H2.
    pose proof (IH (SpecFloat.iter_pos shr_1 p (shr_1 mrs)) ltac:(lia)) as H3. lia.
  - pose proof (IH mrs H) as H2.
    pose proof (IH (SpecFloat.iter_pos shr_1 p mrs) ltac:(lia)) as H3. lia.
  - apply shr_1_bounds, H.
Qed.

Lemma shr_bounds (mrs mrs' : shr_record) (e n e' : Z) :
  shr mrs e n = (mrs', e') -> 0 <= shr_m mrs ->
  0 <= shr_m mrs' <= shr_m mrs /\ (e' = e \/ e' = e + n).
Proof.
  unfold shr. destruct n as [|p|p]; intros [= <- <-] H; try lia.
  split; [ apply iter_shr_1_bounds, H | lia ].
Qed.

Lemma shr_m_of_loc (m : Z) (l : location) : shr_m (shr_record_of_loc m l) = m.
Proof. destruct l as [|[]]; reflexivity. Qed.

Lemma shr_fexp_bounds (m e : Z) (l : location) (mrs' : shr_record) (e' : Z) :
  shr_fexp prec emax m e l = (mrs', e') -> 0 <= m ->
  0 <= shr_m mrs' <= m /\ (e' = e \/ e' = fexp prec emax (Zdigits2 m + e)).
Proof.
  unfold shr_fexp. intros H Hm.
  apply shr_bounds in H; rewrite shr_m_of_loc in *; [ | lia ].
  lia.
Qed.

Lemma round_nearest_even_bounds (m : Z) (l : location) :
  m <= round_nearest_even m l <= m + 1.
Proof.
  destruct l as [|[]]; cbn; try lia. destruct (Z.even m); lia.
Qed.

Lemma Zdigits2_log2 (m : Z) : 0 < m -> Zdigits2 m = Z.log2 m + 1.
Proof.
  destruct m as [|p|p]; try lia. intros _.
  cbn [Zdigits2].
  assert (H : forall q, digits2_pos q = Pos.size q).
  { induction q; cbn; congruence. }
  rewrite H. destruct p; cbn; lia.
Qed.

Lemma Zdigits2_le_pow (m k : Z) : 0 <= m < 2 ^ k -> 0 <= k -> Zdigits2 m <= k.
Proof.
  intros Hm Hk. destruct (Z.eq_dec m 0) as [->|Hne]; [ cbn; lia | ].
  rewrite Zdigits2_log2 by lia.
  assert (Z.log2 m < k) by (apply Z.log2_lt_pow2; lia). lia.
Qed.

Lemma Zdigits2_pow_gt (m : Z) : 0 <= m -> m < 2 ^ Zdigits2 m.
Proof.
  intros Hm. destruct (Z.eq_dec m 0) as [->|Hne]; [ cbn; lia | ].
  rewrite Zdigits2_log2 by lia.
  apply Z.log2_spec. lia.
Qed.

(** The result of rounding a non-negative mantissa: zero, a finite
    number or an infinity, with the exponent bounded by the input's. *)
Lemma binary_round_aux_cases (sx : bool) (m e : Z) (l : location) :
  0 <= m ->
  exists m2 e1 e2,
    (e1 = e \/ e1 = fexp prec emax (Zdigits2 m + e))
    /\ 0 <= m2 <= m + 1
    /\ (e2 = e1 \/ e2 = fexp prec emax (Zdigits2 m2 + e1))
    /\ (binary_round_aux prec emax sx m e l = S754_zero sx
        \/ exists p, binary_round_aux prec emax sx m e l
                     = if e2 <=? emax - prec then S754_finite sx p e2
                       else S754_infinity sx).
Proof.
  intros Hm. unfold binary_round_aux.
  destruct (shr_fexp prec emax m e l) as [mrs1 e1] eqn:H1.
  apply shr_fexp_bounds in H1 as [Hm1 He1]; [ | exact Hm ].
  pose proof (round_nearest_even_bounds (shr_m mrs1) (loc_of_shr_record mrs1)) as Hr.
  set (m2 := round_nearest_even (shr_m mrs1) (loc_of_shr_record mrs1)) in *.
  destruct (shr_fexp prec emax m2 e1 loc_Exact) as [mrs2 e2] eqn:H2.
  apply shr_fexp_bounds in H2 as [Hm2 He2]; [ | lia ].
  exists m2, e1, e2. repeat split; try lia; try assumption.
  destruct (shr_m mrs2) as [|p|p]; [ left; reflexivity | right; exists p; reflexivity | lia ].
Qed.

Lemma binary_round_aux_not_nan (sx : bool) (m e : Z) (l : location) :
  0 <= m -> binary_round_aux prec emax sx m e l <> S754_nan.
Proof.
  intros Hm.
  destruct (binary_round_aux_cases sx m e l Hm) as (m2 & e1 & e2 & _ & _ & _ & [H|[p H]]);
    rewrite H; [ discriminate | destruct (e2 <=? emax - prec); discriminate ].
Qed.

Lemma binary_round_aux_finite (sx : bool) (m e : Z) (l : location) (k : Z) :
  0 <= m < 2 ^ k -> 0 <= k <= 1000 -> e <= 900 -> 2 * k + e <= 1000 ->
  sf_finite (binary_round_aux prec emax sx m e l).
Proof.
  intros Hm Hk He Hke.
  destruct (binary_round_aux_cases sx m e l ltac:(lia)) as (m2 & e1 & e2 & He1 & Hm2 & He2 & [H|[p H]]);
    rewrite H; [ exact I | ].
  assert (Hd : Zdigits2 m <= k) by (apply Zdigits2_le_pow; lia).
  assert (Hd2 : Zdigits2 m2 <= k + 1).
  { apply Zdigits2_le_pow; [ | lia ]. rewrite Z.pow_add_r by lia. lia. }
  assert (Hd0 : 0 <= Zdigits2 m) by (destruct m; cbn; lia).
  assert (Hd20 : 0 <= Zdigits2 m2) by (destruct m2; cbn; lia).
  unfold fexp, emin in *.
  change prec with 53 in *. change emax with 1024 in *.
  replace (e2 <=? 1024 - 53) with true by (symmetry; apply Z.leb_le; lia).
  exact I.
Qed.

Lemma binary_round_not_nan (sx : bool) (m : positive) (e : Z) :
  binary_round prec emax sx m e <> S754_nan.
Proof.
  unfold binary_round. destruct (shl_align _ _ _) as [mz ez].
  apply binary_round_aux_not_nan. lia.
Qed.

Lemma binary_normalize_not_nan (m e : Z) (szero : bool) :
  binary_normalize prec emax m e szero <> S754_nan.
Proof.
  destruct m; cbn; [ discriminate | apply binary_round_not_nan .. ].
Qed.

Lemma SFopp_not_nan (x : spec_float) : x <> S754_nan -> SFopp x <> S754_nan.
Proof. destruct x; cbn; congruence. Qed.

Lemma SFmul_not_nan (s : bool) (m : positive) (e : Z) (y : spec_float) :
  y <> S754_nan -> SF64mul (S754_finite s m e) y <> S754_nan.
Proof.
  destruct y as [sy|sy| |sy my ey]; cbn; try congruence. intros _.
  apply binary_round_aux_not_nan. lia.
Qed.

Lemma SFadd_not_nan (x y : spec_float) :
  sf_finite x -> y <> S754_nan ->
  SF64add x y <> S754_nan /\ SF64add y x <> S754_nan.
Proof.
  destruct x as [sx|sx| |sx mx ex]; cbn [sf_finite]; try tauto; intros _;
    destruct y as [sy|sy| |sy my ey]; intros Hy; try congruence; cbn;
    try (split; discriminate);
    try (destruct sx, sy; split; discriminate).
  split; apply binary_normalize_not_nan.
Qed.

Lemma SFdiv_not_nan (s : bool) (m : positive) (e : Z) (y : spec_float) :
  y <> S754_nan -> SF64div (S754_finite s m e) y <> S754_nan.
Proof.
  destruct y as [sy|sy| |sy my ey]; cbn -[SFdiv_core_binary]; try congruence. intros _.
  destruct (SFdiv_core_binary prec emax (Z.pos m) e (Z.pos my) ey) as [[mz ez] lz] eqn:H.
  apply binary_round_aux_not_nan.
  unfold SFdiv_core_binary in H.
  set (s' := _ - _ - _) in H.
  set (m' := match s' with Z.pos _ => _ | Z0 => _ | Z.neg _ => _ end) in H.
  assert (Hm' : 0 <= m').
  { subst m'. destruct s'; try lia. apply Z.shiftl_nonneg. lia. }
  pose proof (Z_div_mod m' (Z.pos my) ltac:(lia)) as Hdiv.
  destruct (Z.div_eucl m' (Z.pos my)) as [q r].
  injection H as <- _ _. nia.
Qed.

Lemma SFcompare_refl (x : spec_float) : x <> S754_nan -> SFcompare x x = Some Eq.
Proof.
  destruct x as [s|s| |s m e]; cbn; try congruence; intros _.
  - destruct s; reflexivity.
  - rewrite Z.compare_refl. change (Pos.compare_cont Eq m m) with (Pos.compare m m).
    rewrite Pos.compare_refl. destruct s; reflexivity.
Qed.

Lemma is_nan_false (f : float) : is_nan f = false <-> not_nan f.
Proof.
  unfold is_nan, not_nan. rewrite FloatAxioms.eqb_spec. unfold SFeqb. split.
  - intros H Hn. rewrite Hn in H. discriminate H.
  - intros H. rewrite SFcompare_refl by exact H. reflexivity.
Qed.

Lemma finite_not_nan (f : float) : finite_float f -> not_nan f.
Proof. unfold finite_float, not_nan. destruct (Prim2SF f); cbn; congruence. Qed.

Lemma float_leb_not_nan (a b : float) : (a <=? b)%float = true -> not_nan a /\ not_nan b.
Proof.
  rewrite FloatAxioms.leb_spec. unfold SFleb, not_nan.
  destruct (Prim2SF a), (Prim2SF b); cbn; split; congruence.
Qed.

Lemma float_ltb_leb (a b : float) : (a <? b)%float = true -> (a <=? b)%float = true.
Proof.
  rewrite FloatAxioms.ltb_spec, FloatAxioms.leb_spec. unfold SFltb, SFleb.
  destruct (SFcompare _ _) as [[]|]; congruence.
Qed.

Lemma opp_not_nan (x : float) : not_nan x -> not_nan (- x).
Proof. unfold not_nan. rewrite FloatAxioms.opp_spec. apply SFopp_not_nan. Qed.

Lemma mul_not_nan (c x : float) (s : bool) (m : positive) (e : Z) :
  Prim2SF c = S754_finite s m e -> not_nan x -> not_nan (c * x).
Proof.
  unfold not_nan. intros Hc Hx. rewrite FloatAxioms.mul_spec, Hc. apply SFmul_not_nan, Hx.
Qed.

Lemma add_not_nan_l (x y : float) : finite_float x -> not_nan y -> not_nan (x + y).
Proof.
  unfold finite_float, not_nan. intros Hx Hy. rewrite FloatAxioms.add_spec.
  apply (SFadd_not_nan _ _ Hx Hy).
Qed.

Lemma add_not_nan_r (x y : float) : not_nan x -> finite_float y -> not_nan (x + y).
Proof.
  unfold finite_float, not_nan. intros Hx Hy. rewrite FloatAxioms.add_spec.
  apply (SFadd_not_nan _ _ Hy Hx).
Qed.

Lemma div_not_nan (c x : float) (s : bool) (m : positive) (e : Z) :
  Prim2SF c = S754_finite s m e -> not_nan x -> not_nan (c / x).
Proof.
  unfold not_nan. intros Hc Hx. rewrite FloatAxioms.div_spec, Hc. apply SFdiv_not_nan, Hx.
Qed.

Lemma SFldexp_not_nan (x : spec_float) (e : Z) :
  x <> S754_nan -> SFldexp prec emax x e <> S754_nan.
Proof.
  destruct x; cbn; try congruence. intros _. apply binary_round_not_nan.
Qed.

Lemma float_of_Z_not_nan (z : Z) : not_nan (float_of_Z z).
Proof.
  unfold float_of_Z, not_nan.
  pose proof (binary_normalize_not_nan z 0 false) as Hn.
  destruct (binary_normalize prec emax z 0 false) as [s|s| |s m e];
    [ destruct s; vm_compute; discriminate
    | destruct s; vm_compute; discriminate
    | congruence | ].
  assert (H : Prim2SF (Z.ldexp (of_uint63 (Uint63Axioms.of_Z (Z.pos m))) e) <> S754_nan).
  { unfold Z.ldexp. rewrite FloatAxioms.ldshiftexp_spec. apply SFldexp_not_nan.
    rewrite FloatAxioms.of_uint63_spec. apply binary_normalize_not_nan. }
  cbn [SF2Prim]. destruct s; [ rewrite FloatAxioms.opp_spec; apply SFopp_not_nan | ]; exact H.
Qed.

(** A number in [[0, 1]] is a zero or a positive float below 2. *)
Lemma unit_interval_sf (p : float) :
  (0 <=? p)%float = true -> (p <=? 1)%float = true ->
  (exists s, Prim2SF p = S754_zero s)
  \/ exists m e, Prim2SF p = S754_finite false m e /\ e <= -52 /\ Z.pos m < 2 ^ 53.
Proof.
  rewrite !FloatAxioms.leb_spec. intros H0 H1.
  pose proof (Prim2SF_valid p) as Hv.
  change (Prim2SF 0) with (S754_zero false) in H0.
  change (Prim2SF 1) with (S754_finite false 4503599627370496 (-52)) in H1.
  destruct (Prim2SF p) as [s|s| |s m e].
  - left. exists s. reflexivity.
  - destruct s; cbn in H0, H1; discriminate.
  - discriminate H0.
  - right. destruct s; [ discriminate H0 | ].
    exists m, e. split; [ reflexivity | ].
    unfold SFleb, SFcompare in H1.
    cbn [valid_binary] in Hv. unfold bounded, canonical_mantissa in Hv.
    apply andb_true_iff in Hv as [Hc _]. apply Z.eqb_eq in Hc.
    unfold fexp, emin in Hc. change prec with 53 in Hc. change emax with 1024 in Hc.
    assert (Hd : Z.pos (digits2_pos m) <= 53) by lia.
    pose proof (Zdigits2_pow_gt (Z.pos m) ltac:(lia)) as Hp. cbn [Zdigits2] in Hp.
    assert (Hpow : 2 ^ Z.pos (digits2_pos m) <= 2 ^ 53)
      by (apply Z.pow_le_mono_r; lia).
    split; [ | lia ].
    destruct (Z.compare_spec e (-52)); [ lia | lia | discriminate H1 ].
Qed.

Lemma mul_unit_finite (c p : float) (s : bool) (m : positive) (e : Z) :
  Prim2SF c = S754_finite s m e -> Z.pos m < 2 ^ 53 -> e <= 0 ->
  (0 <=? p)%float = true -> (p <=? 1)%float = true ->
  finite_float (c * p).
Proof.
  intros Hc Hm He H0 H1. unfold finite_float. rewrite FloatAxioms.mul_spec, Hc.
  destruct (unit_interval_sf p H0 H1) as [[sp ->]|(mp & ep & -> & Hep & Hmp)].
  - exact I.
  - cbn [SF64mul SFmul].
    apply (binary_round_aux_finite _ _ _ _ 106); try lia.
    rewrite Pos2Z.inj_mul. change (2 ^ 106) with (2 ^ 53 * 2 ^ 53). nia.
Qed.

(** *** The order on positive finite floats *)
Lemma pos_finite_ltb (a b : float) (ma mb : positive) (ea eb : Z) :
  Prim2SF a = S754_finite false ma ea -> Prim2SF b = S754_finite false mb eb ->
  ((a <? b)%float = true <-> ea < eb \/ (ea = eb /\ (ma < mb)%positive)).
Proof.
  intros Ha Hb. rewrite FloatAxioms.ltb_spec, Ha, Hb. unfold SFltb, SFcompare.
  change (Pos.compare_cont Eq ma mb) with (Pos.compare ma mb).
  destruct (Z.compare_spec ea eb); destruct (Pos.compare_spec ma mb);
    split; intros; try discriminate; try reflexivity; lia.
Qed.

Lemma pos_finite_leb (a b : float) (ma mb : positive) (ea eb : Z) :
  Prim2SF a = S754_finite false ma ea -> Prim2SF b = S754_finite false mb eb ->
  ((a <=? b)%float = true <-> ea < eb \/ (ea = eb /\ (ma <= mb)%positive)).
Proof.
  intros Ha Hb. rewrite FloatAxioms.leb_spec, Ha, Hb. unfold SFleb, SFcompare.
  change (Pos.compare_cont Eq ma mb) with (Pos.compare ma mb).
  destruct (Z.compare_spec ea eb); destruct (Pos.compare_spec ma mb);
    split; intros; try discriminate; try reflexivity; lia.
Qed.

Lemma float_leb_refl (a : float) : positive_float a -> (a <=? a)%float = true.
Proof.
  intros (m & e & Ha). apply (pos_finite_leb a a m m e e Ha Ha). lia.
Qed.

Lemma float_not_ltb_leb (a b : float) :
  positive_float a -> positive_float b -> (a <? b)%float = false -> (b <=? a)%float = true.
Proof.
  intros (ma & ea & Ha) (mb & eb & Hb) Hlt.
  apply (pos_finite_leb b a mb ma eb ea Hb Ha).
  destruct (Z.lt_trichotomy ea eb) as [H|[H|H]]; [ | | lia ].
  - exfalso. apply not_true_iff_false in Hlt. apply Hlt.
    apply (pos_finite_ltb a b ma mb ea eb Ha Hb). lia.
  - destruct (Pos.lt_total ma mb) as [H'|[H'|H']]; [ | lia | lia ].
    exfalso. apply not_true_iff_false in Hlt. apply Hlt.
    apply (pos_finite_ltb a b ma mb ea eb Ha Hb). lia.
Qed.

Lemma float_leb_trans (a b c : float) :
  positive_float a -> positive_float b -> positive_float c ->
  (a <=? b)%float = true -> (b <=? c)%float = true -> (a <=? c)%float = true.
Proof.
  intros (ma & ea & Ha) (mb & eb & Hb) (mc & ec & Hc) Hab Hbc.
  apply (pos_finite_leb a b ma mb ea eb Ha Hb) in Hab.
  apply (pos_finite_leb b c mb mc eb ec Hb Hc) in Hbc.
  apply (pos_finite_leb a c ma mc ea ec Ha Hc). lia.
Qed.

(** *** The clamp of the blended probability *)

Lemma np_clip_in_range (x : float) :
  not_nan x -> in_wp_range (np_clip x 0.01 0.99).
Proof.
  intros Hx. apply is_nan_false in Hx.
  unfold in_wp_range, np_clip, npy_max. rewrite Hx.
  destruct (0.01 <? x)%float eqn:Hlo.
  - unfold npy_min. rewrite Hx.
    destruct (x <? 0.99)%float eqn:Hhi.
    + split; apply float_ltb_leb; assumption.
    + split; reflexivity.
  - split; reflexivity.
Qed.

Lemma in_wp_range_pos_finite (v : float) : in_wp_range v -> positive_float v.
Proof.
  unfold in_wp_range, positive_float. rewrite !FloatAxioms.leb_spec.
  intros [Hlo Hhi].
  destruct (Prim2SF v) as [s|s| |s m e].
  - vm_compute in Hlo. discriminate Hlo.
  - destruct s; [ vm_compute in Hlo; discriminate Hlo | vm_compute in Hhi; discriminate Hhi ].
  - vm_compute in Hlo. discriminate Hlo.
  - destruct s; [ vm_compute in Hlo; discriminate Hlo | eauto ].
Qed.

Lemma py_float_ok (z : Z) (f : float) : py_float z = Ok f -> f = float_of_Z z.
Proof.
  unfold py_float. destruct (is_infinity (float_of_Z z)); [ discriminate | ].
  intros [= <-]. reflexivity.
Qed.

Section EpToWp.
Variable np_exp : float -> float.
Hypothesis np_exp_nonneg : exp_nonneg np_exp.

Lemma blended_not_nan (prob score : float) (possession : Z) :
  (0 <=? prob)%float = true -> (prob <=? 1)%float = true -> not_nan score ->
  not_nan (0.7 * prob
           + 0.3 * (0.5 * (1 / (1 + np_exp (0.18 * (- score))))
                    + (if (possession =? 1)%Z then 0.06 else (-0.06))
                    + 0.5))%float.
Proof.
  intros H0 H1 Hs.
  apply add_not_nan_l.
  - eapply mul_unit_finite; [ reflexivity | reflexivity | discriminate | exact H0 | exact H1 ].
  - eapply mul_not_nan; [ reflexivity | ].
    apply add_not_nan_r; [ | exact I ].
    apply add_not_nan_r; [ | destruct (possession =? 1); exact I ].
    eapply mul_not_nan; [ reflexivity | ].
    eapply div_not_nan; [ reflexivity | ].
    apply add_not_nan_l; [ exact I | ].
    apply (float_leb_not_nan 0), np_exp_nonneg, is_nan_false.
    eapply mul_not_nan; [ reflexivity | ].
    apply opp_not_nan, Hs.
Qed.

Lemma ep_to_wp_in_range (calibrator : option predictor) (base : Features)
    (ep_value : float) (possession : Z) (v : float) :
  (forall c, calibrator = Some c -> probability_valued c) ->
  _ep_to_wp np_exp calibrator base ep_value possession = Ok v ->
  in_wp_range v.
Proof.
  intros Hcal. unfold _ep_to_wp.
  destruct (py_float (f_score_diff base)) as [score|] eqn:Hscore; [ | discriminate ].
  cbn [rbind].
  destruct calibrator as [c|]; [ | discriminate ].
  cbn [rbind].
  destruct (py_float (f_time_remaining base)) as [secs|]; [ | discriminate ].
  cbn [rbind]. intros [= <-].
  apply np_clip_in_range.
  destruct (Hcal c eq_refl (<[5%nat:=NFloat (score + 0.2 * ep_value)%float]>
                              (wp_features base possession))) as [H0 H1].
  apply blended_not_nan; [ exact H0 | exact H1 | ].
  apply py_float_ok in Hscore as ->. apply float_of_Z_not_nan.
Qed.
End EpToWp.

Lemma load_model_on_disk (dir : ModelsDir) (name version : string)
    (m : predictor) (c : option predictor) (md : list (string * float)) :
  load_model dir name version = Ok (m, c, md) ->
  exists files art,
    dir = Some files /\ files !! artifact_fname name version = Some art
    /\ c = art_calibrator art.
Proof.
  unfold load_model. destruct dir as [files|]; [ | discriminate ].
  destruct (files !! artifact_fname name version) as [art|] eqn:Hart; [ | discriminate ].
  intros [= _ <- _]. eauto.
Qed.


(** ** The response computed on a cache miss *)

Lemma sorted_insert_length (x : float) (l : list float) :
  length (sorted_insert x l) = S (length l).
Proof.
  induction l as [|y l IH]; cbn; [ reflexivity | ].
  destruct (x <? y)%float; cbn; [ reflexivity | rewrite IH; reflexivity ].
Qed.

Lemma sorted_length (l : list float) : length (sorted l) = length l.
Proof.
  unfold sorted.
  assert (H : forall acc, length (fold_left (fun acc x => sorted_insert x acc) l acc)
                          = (length acc + length l)%nat).
  { induction l as [|x l IH]; intros acc; cbn; [ lia | ].
    rewrite IH, sorted_insert_length. lia. }
  apply H.
Qed.

(** [max] over the three simulated actions returns one of them, and no
    win probability exceeds the returned one. *)
Lemma argmax_three (a b c : string * Outcome) :
  positive_float (wp (snd a)) -> positive_float (wp (snd b)) ->
  positive_float (wp (snd c)) ->
  exists best,
    py_max_by (fun kv => wp (snd kv)) [a; b; c] = Ok best
    /\ In best [a; b; c]
    /\ (wp (snd a) <=? wp (snd best))%float = true
    /\ (wp (snd b) <=? wp (snd best))%float = true
    /\ (wp (snd c) <=? wp (snd best))%float = true.
Proof.
  intros Fa Fb Fc. cbn [py_max_by fold_left].
  destruct (wp (snd a) <? wp (snd b))%float eqn:C1.
  - destruct (wp (snd b) <? wp (snd c))%float eqn:C2.
    + exists c. repeat split; [ cbn; tauto | | | ].
      * apply (float_leb_trans _ (wp (snd b))); auto using float_ltb_leb.
      * apply float_ltb_leb, C2.
      * apply float_leb_refl, Fc.
    + exists b. repeat split; [ cbn; tauto | | | ].
      * apply float_ltb_leb, C1.
      * apply float_leb_refl, Fb.
      * apply float_not_ltb_leb; assumption.
  - destruct (wp (snd a) <? wp (snd c))%float eqn:C2.
    + exists c. repeat split; [ cbn; tauto | | | ].
      * apply float_ltb_leb, C2.
      * apply (float_leb_trans _ (wp (snd a))); auto using float_ltb_leb, float_not_ltb_leb.
      * apply float_leb_refl, Fc.
    + exists a. repeat split; [ cbn; tauto | | | ].
      * apply float_leb_refl, Fa.
      * apply float_not_ltb_leb; assumption.
      * apply float_not_ltb_leb; assumption.
Qed.

(** What a computed response is made of, for a valid query under the
    models' contracts. *)
Lemma miss_response_shape
    (np_exp : float -> float) (_key : RecommendQuery -> string)
    (q : RecommendQuery) (ov : option string) (w : World)
    (resp : RecommendResponse) :
  exp_nonneg np_exp ->
  calibrators_probability_valued (models_dir w) ->
  valid_query q = true ->
  LRUCache.peek (cache w) (_key q) = None ->
  fst (_infer_one np_exp _key q ov w) = Ok resp ->
  exists (go punt fg best : Outcome) (best_action : string),
    in_wp_range (wp go) /\ in_wp_range (wp punt) /\ in_wp_range (wp fg)
    /\ In (best_action, best)
          [("GO"%string, go); ("PUNT"%string, punt); ("FG"%string, fg)]
    /\ (wp go <=? wp best)%float = true
    /\ (wp punt <=? wp best)%float = true
    /\ (wp fg <=? wp best)%float = true
    /\ recommendation resp = best_action
    /\ delta_wp resp = (wp best - nth 1 (sorted [wp go; wp punt; wp fg]) 0)%float
    /\ delta_ep resp = (ep best - nth 1 (sorted [ep go; ep punt; ep fg]) 0)%float
    /\ alternatives resp
       = [ {| action := "GO"; alt_wp := wp go; alt_ep := ep go |};
           {| action := "PUNT"; alt_wp := wp punt; alt_ep := ep punt |};
           {| action := "FG"; alt_wp := wp fg; alt_ep := ep fg |} ].
Proof.
  intros Hexp Hcal Hvalid Hmiss Hrun.
  rewrite (infer_one_miss np_exp _key q ov w Hmiss) in Hrun.
  destruct (compute_response np_exp (models_dir w) q ov) as [r|] eqn:Hc;
    [ | discriminate Hrun ].
  assert (r = resp) as ->.
  { destruct (LRUCache.set _ _ _); cbn in Hrun; congruence. }
  clear Hrun. unfold compute_response in Hc.
  destruct (load_model (models_dir w) "ep_model" _) as [[[ep_model ?] ?]|];
    [ | discriminate Hc ].
  cbn [rbind] in Hc.
  destruct (load_model (models_dir w) "wp_model" _) as [[[? calibrator] ?]|] eqn:Hload;
    [ | discriminate Hc ].
  cbn [rbind] in Hc.
  apply load_model_on_disk in Hload as (files & art & Hdir & Hart & ->).
  assert (Hprob : forall c, art_calibrator art = Some c -> probability_valued c).
  { intros c Hc'. exact (Hcal files _ art c Hdir Hart Hc'). }
  destruct (simulate_actions_to_wp np_exp ep_model (art_calibrator art) (features_of q))
    as [wps|] eqn:Hsim; [ | discriminate Hc ].
  cbn [rbind] in Hc.
  destruct (simulate_shape np_exp ep_model (art_calibrator art) q Hvalid wps Hsim)
    as (wp_go & wp_punt & wp_fg & Hgo & Hpunt & Hfg & ->).
  apply (ep_to_wp_in_range np_exp Hexp _ _ _ _ _ Hprob) in Hgo, Hpunt, Hfg.
  set (go := {| wp := wp_go; ep := ep_go_spec ep_model q |}) in *.
  set (punt := {| wp := wp_punt; ep := ep_punt_spec ep_model q |}) in *.
  set (fg := {| wp := wp_fg; ep := ep_fg_spec ep_model q |}) in *.
  destruct (argmax_three ("GO"%string, go) ("PUNT"%string, punt) ("FG"%string, fg))
    as ([best_action best] & Hbest & Hin & Hle1 & Hle2 & Hle3);
    [ apply in_wp_range_pos_finite; assumption .. | ].
  rewrite Hbest in Hc. cbn [rbind fst snd] in Hc, Hle1, Hle2, Hle3.
  rewrite !sorted_length in Hc.
  exists go, punt, fg, best, best_action.
  repeat (split; [ assumption | ]).
  destruct Hin as [[= <- <-]|[[= <- <-]|[[= <- <-]|[]]]];
    cbn -[sorted nth] in Hc; injection Hc as <-; cbn -[sorted nth];
    repeat split; reflexivity.
Qed.

(** ** The action set and the win probabilities *)

(** C4. For a valid query, the response computed on a cache miss lists
    exactly GO, PUNT and FG, once each and in this order; every listed
    win probability lies in [[0.01, 0.99]]; and the recommendation is a
    listed action whose win probability no other listed one exceeds.
    The models are taken under their contracts: the stored calibrators
    return probabilities and [np.exp] returns non-negative numbers. *)
Theorem action_set_invariant
    (np_exp : float -> float) (_key : RecommendQuery -> string)
    (q : RecommendQuery) (ov : option string) (w : World)
    (resp : RecommendResponse) :
  exp_nonneg np_exp ->
  calibrators_probability_valued (models_dir w) ->
  valid_query q = true ->
  LRUCache.peek (cache w) (_key q) = None ->
  fst (_infer_one np_exp _key q ov w) = Ok resp ->
  map action (alternatives resp) = ["GO"; "PUNT"; "FG"]%string
  /\ Forall (fun a => in_wp_range (alt_wp a)) (alternatives resp)
  /\ exists best,
       In best (alternatives resp)
       /\ action best = recommendation resp
       /\ Forall (fun a => (alt_wp a <=? alt_wp best)%float = true) (alternatives resp).
Proof.
  intros Hexp Hcal Hvalid Hmiss Hrun.
  destruct (miss_response_shape np_exp _key q ov w resp Hexp Hcal Hvalid Hmiss Hrun)
    as (go & punt & fg & best & best_action & Hgo & Hpunt & Hfg & Hin
        & Hle1 & Hle2 & Hle3 & -> & _ & _ & ->).
  split; [ reflexivity | ].
  split; [ repeat (apply List.Forall_cons; [ assumption | ]); apply List.Forall_nil | ].
  exists {| action := best_action; alt_wp := wp best; alt_ep := ep best |}.
  split; [ | split; [ reflexivity | ] ].
  - destruct Hin as [[= <- <-]|[[= <- <-]|[[= <- <-]|[]]]]; cbn; tauto.
  - repeat (apply List.Forall_cons; [ assumption | ]). apply List.Forall_nil.
Qed.

(** The July directory holds one calibrator, [wp_flat], which answers 0.5. *)
Lemma scenario_calibrators_probability_valued :
  calibrators_probability_valued Scenario.dir_july.
Proof.
  intros files fname art c [= <-] Hlook Hcal.
  apply lookup_insert_Some in Hlook as [[_ <-]|[_ Hlook]].
  - injection Hcal as <-. intros x. split; reflexivity.
  - apply lookup_insert_Some in Hlook as [[_ <-]|[_ Hlook]].
    + discriminate Hcal.
    + rewrite lookup_empty in Hlook. discriminate Hlook.
Qed.

(** [action_set_invariant] for 4th-and-1 at midfield under the July models. *)
Lemma action_set_invariant_midfield :
  exists resp,
    fst (_infer_one Scenario.exp_at_zero Scenario.key Scenario.fourth_and_one
                    None (Scenario.boot Scenario.dir_july)) = Ok resp
    /\ map action (alternatives resp) = ["GO"; "PUNT"; "FG"]%string
    /\ Forall (fun a => in_wp_range (alt_wp a)) (alternatives resp)
    /\ exists best,
         In best (alternatives resp)
         /\ action best = recommendation resp
         /\ Forall (fun a => (alt_wp a <=? alt_wp best)%float = true)
                   (alternatives resp).
Proof.
  eexists. split.
  - vm_compute. reflexivity.
  - apply (action_set_invariant Scenario.exp_at_zero Scenario.key
             Scenario.fourth_and_one None (Scenario.boot Scenario.dir_july)).
    + intros x _. reflexivity.
    + exact scenario_calibrators_probability_valued.
    + reflexivity.
    + reflexivity.
    + vm_compute. reflexivity.
Defined.

(** ** More on the deltas: the win-probability gap

    [delta_wp] is what the specification says of both deltas: the gap
    between the largest and the second-largest win probability, which is
    never negative. *)

Lemma float_leb_antisym (a b : float) :
  positive_float a -> positive_float b ->
  (a <=? b)%float = true -> (b <=? a)%float = true -> a = b.
Proof.
  intros (ma & ea & Ha) (mb & eb & Hb) Hab Hba.
  apply (pos_finite_leb a b ma mb ea eb Ha Hb) in Hab.
  apply (pos_finite_leb b a mb ma eb ea Hb Ha) in Hba.
  apply Prim2SF_inj. rewrite Ha, Hb.
  assert (ea = eb) as -> by lia. assert (ma = mb) as -> by lia. reflexivity.
Qed.

Lemma sorted_three (a b c : float) :
  positive_float a -> positive_float b -> positive_float c ->
  exists lo mid hi,
    sorted [a; b; c] = [lo; mid; hi]
    /\ Permutation [a; b; c] [lo; mid; hi]
    /\ (lo <=? mid)%float = true /\ (mid <=? hi)%float = true.
Proof.
  intros Fa Fb Fc. unfold sorted. cbn [fold_left sorted_insert].
  destruct (b <? a)%float eqn:Cba; cbn [sorted_insert].
  - destruct (c <? b)%float eqn:Ccb; [ | destruct (c <? a)%float eqn:Cca ].
    + exists c, b, a. repeat split; auto using float_ltb_leb. perm3.
    + exists b, c, a. repeat split; auto using float_ltb_leb, float_not_ltb_leb. perm3.
    + exists b, a, c. repeat split; auto using float_ltb_leb, float_not_ltb_leb. perm3.
  - destruct (c <? a)%float eqn:Cca; [ | destruct (c <? b)%float eqn:Ccb ].
    + exists c, a, b. repeat split; auto using float_ltb_leb, float_not_ltb_leb. perm3.
    + exists a, c, b. repeat split; auto using float_ltb_leb, float_not_ltb_leb. perm3.
    + exists a, b, c. repeat split; auto using float_ltb_leb, float_not_ltb_leb.
Qed.

(** Subtracting a smaller positive float leaves a non-negative one. *)
Lemma pos_iter_xO_ge (m d : positive) : 2 * Z.pos m <= Z.pos (Pos.iter xO m d).
Proof.
  induction d as [|d IH] using Pos.peano_ind.
  - cbn. lia.
  - rewrite Pos.iter_succ. lia.
Qed.

Lemma shl_align_fst (m : positive) (e e' : Z) :
  (e' = e -> fst (shl_align m e e') = m)
  /\ (e' < e -> 2 * Z.pos m <= Z.pos (fst (shl_align m e e'))).
Proof.
  unfold shl_align. split; intros H.
  - subst e'. rewrite Z.sub_diag. reflexivity.
  - destruct (e' - e) as [|d|d] eqn:Hd; try lia. cbn [fst]. apply pos_iter_xO_ge.
Qed.

Lemma canonical_mantissa_bounds (m : positive) (e : Z) :
  canonical_mantissa prec emax m e = true ->
  -1074 <= e /\ Z.pos m < 2 ^ 53 /\ (-1074 < e -> 2 ^ 52 <= Z.pos m).
Proof.
  unfold canonical_mantissa, fexp, emin. change prec with 53. change emax with 1024.
  intros H. apply Z.eqb_eq in H.
  pose proof (Zdigits2_pow_gt (Z.pos m) ltac:(lia)) as Hhi.
  pose proof (Zdigits2_log2 (Z.pos m) ltac:(lia)) as Hlog.
  pose proof (Z.log2_spec (Z.pos m) ltac:(lia)) as [Hlo _].
  cbn [Zdigits2] in Hhi, Hlog.
  split; [ lia | ]. split.
  - assert (Z.pos (digits2_pos m) <= 53) by lia.
    assert (2 ^ Z.pos (digits2_pos m) <= 2 ^ 53) by (apply Z.pow_le_mono_r; lia).
    lia.
  - intros He. assert (Z.log2 (Z.pos m) = 52) as Hl by lia.
    rewrite Hl in Hlo. exact Hlo.
Qed.

Lemma binary_normalize_nonneg (z e : Z) :
  0 <= z ->
  SFleb (S754_zero false) (binary_normalize prec emax z e false) = true.
Proof.
  intros Hz. destruct z as [|p|p]; [ reflexivity | | lia ].
  cbn [binary_normalize]. unfold binary_round.
  destruct (shl_align _ _ _) as [mz ez].
  destruct (binary_round_aux_cases false (Z.pos mz) ez loc_Exact ltac:(lia))
    as (m2 & e1 & e2 & _ & _ & _ & [H|[p' H]]); rewrite H; [ reflexivity | ].
  destruct (e2 <=? emax - prec); reflexivity.
Qed.

Lemma float_sub_nonneg (a b : float) :
  positive_float a -> positive_float b ->
  (b <=? a)%float = true -> (0 <=? a - b)%float = true.
Proof.
  intros (ma & ea & Ha) (mb & eb & Hb) Hba.
  apply (pos_finite_leb b a mb ma eb ea Hb Ha) in Hba.
  pose proof (Prim2SF_valid a) as Va. rewrite Ha in Va.
  pose proof (Prim2SF_valid b) as Vb. rewrite Hb in Vb.
  cbn [valid_binary] in Va, Vb. unfold bounded in Va, Vb.
  apply andb_true_iff in Va as [Va _]. apply andb_true_iff in Vb as [Vb _].
  apply canonical_mantissa_bounds in Va as (_ & _ & Halo).
  apply canonical_mantissa_bounds in Vb as (Heb & Hbhi & _).
  rewrite FloatAxioms.leb_spec, FloatAxioms.sub_spec, Ha, Hb.
  change (Prim2SF 0) with (S754_zero false).
  cbn [SF64sub SFsub cond_Zopp].
  apply binary_normalize_nonneg.
  destruct (shl_align_fst ma ea (Z.min ea eb)) as [Ha1 Ha2].
  destruct (shl_align_fst mb eb (Z.min ea eb)) as [Hb1 Hb2].
  destruct Hba as [Hlt|[-> Hle]].
  - rewrite Hb1 by lia. specialize (Ha2 ltac:(lia)). specialize (Halo ltac:(lia)). lia.
  - rewrite Ha1, Hb1 by lia. lia.
Qed.

(** For a valid query, under the models' contracts, the three win
    probabilities of a computed response can be ordered [lo <= second <=
    best] so that [delta_wp = best - second]; and [delta_wp >= 0]. *)
Theorem delta_wp_is_the_wp_gap
    (np_exp : float -> float) (_key : RecommendQuery -> string)
    (q : RecommendQuery) (ov : option string) (w : World)
    (resp : RecommendResponse) :
  exp_nonneg np_exp ->
  calibrators_probability_valued (models_dir w) ->
  valid_query q = true ->
  LRUCache.peek (cache w) (_key q) = None ->
  fst (_infer_one np_exp _key q ov w) = Ok resp ->
  exists lo second best,
    Permutation (map alt_wp (alternatives resp)) [lo; second; best]
    /\ (lo <=? second)%float = true /\ (second <=? best)%float = true
    /\ delta_wp resp = (best - second)%float
    /\ (0 <=? delta_wp resp)%float = true.
Proof.
  intros Hexp Hcal Hvalid Hmiss Hrun.
  destruct (miss_response_shape np_exp _key q ov w resp Hexp Hcal Hvalid Hmiss Hrun)
    as (go & punt & fg & top & top_action & Hgo & Hpunt & Hfg & Hin
        & Hle1 & Hle2 & Hle3 & _ & -> & _ & ->).
  apply in_wp_range_pos_finite in Hgo as Fgo, Hpunt as Fpunt, Hfg as Ffg.
  destruct (sorted_three (wp go) (wp punt) (wp fg) Fgo Fpunt Ffg)
    as (lo & second & best & -> & Hperm & Hls & Hsb).
  cbn [map alt_wp nth].
  assert (Fall : Forall positive_float [lo; second; best]).
  { rewrite <- Hperm. repeat (apply List.Forall_cons; [ assumption | ]).
    apply List.Forall_nil. }
  apply Forall_cons in Fall as [Flo Fall].
  apply Forall_cons in Fall as [Fsecond Fall].
  apply Forall_cons in Fall as [Fbest _].
  assert (Ftop : positive_float (wp top)).
  { destruct Hin as [[= _ <-]|[[= _ <-]|[[= _ <-]|[]]]]; assumption. }
  assert (Htop : wp top = best).
  { apply float_leb_antisym; [ assumption | assumption | | ].
    - assert (Hin' : In (wp top) [lo; second; best]).
      { apply (Permutation_in _ Hperm).
        destruct Hin as [[= _ <-]|[[= _ <-]|[[= _ <-]|[]]]]; cbn; tauto. }
      destruct Hin' as [E|[E|[E|[]]]]; rewrite <- E.
      + apply (float_leb_trans _ second); assumption.
      + assumption.
      + apply float_leb_refl, Fbest.
    - assert (Hin' : In best [wp go; wp punt; wp fg]).
      { apply (Permutation_in _ (Permutation_sym Hperm)). cbn. tauto. }
      destruct Hin' as [E|[E|[E|[]]]]; rewrite <- E; assumption. }
  rewrite Htop.
  exists lo, second, best. repeat split; try assumption.
  apply float_sub_nonneg; assumption.
Qed.

(** [delta_wp_is_the_wp_gap] for 4th-and-1 at midfield under the July models. *)
Lemma delta_wp_is_the_wp_gap_midfield :
  exists resp,
    fst (_infer_one Scenario.exp_at_zero Scenario.key Scenario.fourth_and_one
                    None (Scenario.boot Scenario.dir_july)) = Ok resp
    /\ exists lo second best,
         Permutation (map alt_wp (alternatives resp)) [lo; second; best]
         /\ (lo <=? second)%float = true /\ (second <=? best)%float = true
         /\ delta_wp resp = (best - second)%float
         /\ (0 <=? delta_wp resp)%float = true.
Proof.
  eexists. split.
  - vm_compute. reflexivity.
  - apply (delta_wp_is_the_wp_gap Scenario.exp_at_zero Scenario.key
             Scenario.fourth_and_one None (Scenario.boot Scenario.dir_july)).
    + intros x _. reflexivity.
    + exact scenario_calibrators_probability_valued.
    + reflexivity.
    + reflexivity.
    + vm_compute. reflexivity.
Defined.

(** ** More on the simulator *)

(** The simulator returns a result for every valid query whose score
    differential and clock convert to floats, given a calibrator. *)
Lemma simulate_returns (np_exp : float -> float) (ep_model c : predictor)
    (q : RecommendQuery) (score secs : float) :
  valid_query q = true ->
  py_float (score_diff q) = Ok score ->
  py_float (time_remaining q) = Ok secs ->
  exists wps,
    simulate_actions_to_wp np_exp ep_model (Some c) (features_of q) = Ok wps.
Proof.
  intros Hvalid Hscore Hsecs.
  destruct (valid_query_bounds q Hvalid) as (_ & Ht & Hy & _).
  unfold simulate_actions_to_wp, _ep_to_wp.
  cbn [features_of f_yardline_100 f_ydstogo f_score_diff f_time_remaining].
  rewrite (py_float_yards (yardline_100 q)) by lia.
  replace (ydstogo q =? 0) with false by (symmetry; apply Z.eqb_neq; lia).
  rewrite (py_float_yards (ydstogo q)) by lia.
  rewrite Hscore, Hsecs. cbn [rbind]. eexists. reflexivity.
Qed.

(** The expected points the simulator returns for PUNT: the EP model, asked
    from the receiving side, 38 yards downfield and never past yard 1. *)
Theorem punt_expected_points
    (np_exp : float -> float) (ep_model : predictor)
    (wp_calibrated : option predictor) (q : RecommendQuery)
    (wps : list (string * Outcome)) :
  valid_query q = true ->
  simulate_actions_to_wp np_exp ep_model wp_calibrated (features_of q) = Ok wps ->
  exists o,
    dict_get wps "PUNT" = Some o
    /\ ep o = ep_model (ep_features (features_of q)
                          (100 - float_of_Z (Z.max 1 (yardline_100 q - 38)))%float).
Proof.
  intros Hvalid Hrun.
  destruct (simulate_shape np_exp ep_model wp_calibrated q Hvalid wps Hrun)
    as (wp_go & wp_punt & wp_fg & _ & _ & _ & ->).
  exists {| wp := wp_punt; ep := ep_punt_spec ep_model q |}.
  split; reflexivity.
Qed.

(** [punt_expected_points] for 4th-and-1 at midfield under the July models. *)
Lemma punt_expected_points_midfield :
  let q := Scenario.fourth_and_one in
  let wps :=
    [ ("GO"%string, {| wp := 0.59299999999999997; ep := 0 |});
      ("PUNT"%string, {| wp := 0.55699999999999994; ep := 1 |});
      ("FG"%string, {| wp := 0.55699999999999994; ep := 1.5600000000000001 |}) ] in
  exists o,
    dict_get wps "PUNT" = Some o
    /\ ep o = Scenario.ep_stump (ep_features (features_of q) (100 - 12)%float).
Proof.
  exact (punt_expected_points Scenario.exp_at_zero Scenario.ep_stump
           (Some Scenario.wp_flat) Scenario.fourth_and_one _ eq_refl eq_refl).
Defined.

(** ** Validation *)

(** A request whose parameters break a bound of the schema is rejected
    with a validation error before anything runs: the process state is
    unchanged. *)
Theorem out_of_bounds_rejected
    (np_exp : float -> float) (_key : RecommendQuery -> string)
    (trace : string) (latency : float)
    (dn togo yl secs quarter score off_to def_to : Z) (at_home : bool)
    (model_version : option string) (w : World) :
  valid_query (query_of_params dn togo yl secs quarter score off_to def_to at_home)
  = false ->
  recommend np_exp _key trace latency dn togo yl secs quarter score
            off_to def_to at_home model_version w
  = (Raise ValidationError, w).
Proof.
  intros Hinvalid. unfold recommend, bind, lift. rewrite Hinvalid. reflexivity.
Qed.

(** [out_of_bounds_rejected] for a request with [down = 5]. *)
Lemma out_of_bounds_rejected_fifth_down :
  let w := Scenario.boot Scenario.dir_july in
  recommend Scenario.exp_at_zero Scenario.key "trace-2" 3.5
            5 1 50 120 4 0 1 2 true None w
  = (Raise ValidationError, w).
Proof.
  apply (out_of_bounds_rejected Scenario.exp_at_zero Scenario.key).
  reflexivity.
Defined.

(** ** A repeated call *)

Section CacheFacts.
Context {V : Type}.



Lemma dict_get_evict (fuel : nat) (limit : Z) (d : list (string * V)) (k : string) :
  dict_get d k = None -> dict_get (LRUCache.evict fuel limit d) k = None.
Proof.
  revert d. induction fuel as [|fuel IH]; intros d Hd; cbn; [ exact Hd | ].
  destruct (limit <? Z.of_nat (length d) + 1); [ | exact Hd ].
  destruct d as [|[k' v] d]; [ exact Hd | ].
  apply IH. cbn in Hd. destruct (String.eqb k' k); [ discriminate | exact Hd ].
Qed.



End CacheFacts.



(** ** Distance to go and the expected points of GO

    Whether a shorter distance to go raises the expected points of GO is
    decided by the EP model, which reads the distance itself: between
    4th-and-8 and 4th-and-1 at midfield the stump model gives the same
    value, and a model that returns its distance feature gives less for
    the shorter distance. *)
Lemma go_ep_by_distance_depends_on_model :
  (Scenario.go_ep Scenario.ep_stump Scenario.fourth_and_one,
   Scenario.go_ep Scenario.ep_stump Scenario.fourth_and_eight)
  = (Some 0%float, Some 0%float)
  /\ (Scenario.go_ep Scenario.ep_by_distance Scenario.fourth_and_one,
      Scenario.go_ep Scenario.ep_by_distance Scenario.fourth_and_eight)
     = (Some 1%float, Some 8%float).
Proof. split; vm_compute; reflexivity. Qed.

(** * The rest of the service

    Properties of the code around the simulator: the rationale, the shape
    of a computed response, the bookkeeping of the two endpoints, the
    model store and the version it reports, and the cache. *)

(** ** The rationale *)

(** The rationale holds between one and three sentences, and the
    fallback sentence appears exactly when the distance to go exceeds 3,
    the yard line is below 60 and the action is none of GO, FG and PUNT. *)
Theorem build_rationale_never_empty
    (p : RecommendQuery) (action : string) (wps : list (string * Outcome)) :
  (1 <= length (_build_rationale p action wps) <= 3)%nat
  /\ (In "Model preference"%string (_build_rationale p action wps)
      <-> 3 < ydstogo p /\ yardline_100 p < 60
          /\ action <> "GO"%string /\ action <> "FG"%string
          /\ action <> "PUNT"%string).
Proof.
  unfold _build_rationale.
  destruct (Z.leb_spec (ydstogo p) 3) as [Ht|Ht];
    destruct (Z.leb_spec 60 (yardline_100 p)) as [Hy|Hy];
    destruct (String.eqb_spec action "GO") as [->|Hgo];
    try (destruct (String.eqb_spec action "FG") as [->|Hfg]);
    try (destruct (String.eqb_spec action "PUNT") as [->|Hpunt]);
    cbn; (split; [ lia | ]);
    (split; [ intros H; repeat (destruct H as [H|H]; [ discriminate H | ]);
              try contradiction
            | intros (? & ? & ? & ? & ?); try lia; try congruence ]);
    try (exfalso; lia); auto.
Qed.

(** ** The shape of a computed response *)

(** Whatever the models answer, a run of the simulator that returns
    yields the three actions in the order GO, PUNT, FG. *)
Lemma simulate_keys (np_exp : float -> float) (ep_model : predictor)
    (wp_calibrated : option predictor) (features : Features)
    (wps : list (string * Outcome)) :
  simulate_actions_to_wp np_exp ep_model wp_calibrated features = Ok wps ->
  exists go punt fg,
    wps = [("GO"%string, go); ("PUNT"%string, punt); ("FG"%string, fg)].
Proof.
  unfold simulate_actions_to_wp.
  destruct (py_float (f_yardline_100 features)) as [yardline|]; [ | discriminate ].
  cbn [rbind].
  destruct (if f_ydstogo features =? 0 then Ok 1%float else py_float (f_ydstogo features))
    as [togo|]; [ | discriminate ].
  cbn [rbind].
  destruct (_ep_to_wp _ _ _ _ 1) as [wp_go|]; [ | discriminate ].
  cbn [rbind].
  destruct (_ep_to_wp _ _ _ _ 0) as [wp_punt|]; [ | discriminate ].
  cbn [rbind].
  destruct (_ep_to_wp _ _ _ _ 0) as [wp_fg|]; [ | discriminate ].
  cbn [rbind]. intros [= <-]. eauto.
Qed.

(** [max(..., key=...)] returns one of the elements. *)
Lemma py_max_by_in {A} (key : A -> float) (l : list A) (best : A) :
  py_max_by key l = Ok best -> In best l.
Proof.
  destruct l as [|x l]; [ discriminate | ].
  cbn [py_max_by]. intros [= <-].
  assert (H : forall acc,
             In (fold_left (fun b y => if (key b <? key y)%float then y else b) l acc)
                (acc :: l)).
  { induction l as [|y l IH]; intros acc; cbn [fold_left]; [ left; reflexivity | ].
    destruct (IH (if (key acc <? key y)%float then y else acc)) as [H|H].
    - rewrite <- H. destruct (key acc <? key y)%float; cbn; tauto.
    - right. right. exact H. }
  apply H.
Qed.

(** Every response computed on a cache miss, whatever the models answer
    and whether or not the query is within the schema's bounds, lists GO,
    PUNT and FG in this order and recommends one of them; its rationale
    ends with the sentence of the recommended action and never falls back
    to the generic one; its uncertainty is the constant 0.012 by bootstrap;
    and its version is the prefix 2025-08- followed by the version of the
    newest artifact. *)
Theorem recommendation_is_a_simulated_action
    (np_exp : float -> float) (_key : RecommendQuery -> string)
    (q : RecommendQuery) (ov : option string) (w : World)
    (resp : RecommendResponse) :
  LRUCache.peek (cache w) (_key q) = None ->
  fst (_infer_one np_exp _key q ov w) = Ok resp ->
  map action (alternatives resp) = ["GO"; "PUNT"; "FG"]%string
  /\ In (recommendation resp) ["GO"; "PUNT"; "FG"]%string
  /\ last (rationale resp) = Some (action_sentence (recommendation resp))
  /\ ~ In "Model preference"%string (rationale resp)
  /\ uncertainty resp = {| std := 0.012; method := "bootstrap" |}
  /\ version resp = ("2025-08-" ++ _current_version (models_dir w))%string.
Proof.
  intros Hmiss Hrun.
  rewrite (infer_one_miss np_exp _key q ov w Hmiss) in Hrun.
  destruct (compute_response np_exp (models_dir w) q ov) as [r|] eqn:Hc;
    [ | discriminate Hrun ].
  assert (r = resp) as ->.
  { destruct (LRUCache.set _ _ _); cbn in Hrun; congruence. }
  clear Hrun. unfold compute_response in Hc.
  destruct (load_model (models_dir w) "ep_model" _) as [[[ep_model ?] ?]|];
    [ | discriminate Hc ].
  cbn [rbind] in Hc.
  destruct (load_model (models_dir w) "wp_model" _) as [[[? calibrator] ?]|];
    [ | discriminate Hc ].
  cbn [rbind] in Hc.
  destruct (simulate_actions_to_wp np_exp ep_model calibrator (features_of q))
    as [wps|] eqn:Hsim; [ | discriminate Hc ].
  cbn [rbind] in Hc.
  apply simulate_keys in Hsim as (go & punt & fg & ->).
  destruct (py_max_by _ _) as [[best_action best]|] eqn:Hbest; [ | discriminate Hc ].
  apply py_max_by_in in Hbest.
  cbn [rbind fst] in Hc.
  assert (Hr : forall a, In a ["GO"; "PUNT"; "FG"]%string ->
             last (_build_rationale q a
                     [("GO"%string, go); ("PUNT"%string, punt); ("FG"%string, fg)])
             = Some (action_sentence a)
             /\ ~ In "Model preference"%string
                  (_build_rationale q a
                     [("GO"%string, go); ("PUNT"%string, punt); ("FG"%string, fg)])).
  { intros a Ha. unfold _build_rationale.
    destruct (ydstogo q <=? 3), (60 <=? yardline_100 q);
      destruct Ha as [<-|[<-|[<-|[]]]]; cbn;
      (split; [ reflexivity | ]);
      intros H; repeat (destruct H as [H|H]; [ discriminate H | ]); exact H. }
  destruct Hbest as [[= <- <-]|[[= <- <-]|[[= <- <-]|[]]]];
    cbn -[sorted nth _build_rationale] in Hc; injection Hc as <-;
    cbn -[sorted nth _build_rationale];
    (split; [ reflexivity | ]); (split; [ tauto | ]);
    (split; [ apply Hr; cbn; tauto | ]); (split; [ apply Hr; cbn; tauto | ]);
    split; reflexivity.
Qed.

(** [recommendation_is_a_simulated_action] for 4th-and-8 at midfield under
    the September models. *)
Lemma recommendation_is_a_simulated_action_september :
  let w := Scenario.boot Scenario.dir_september in
  exists resp,
    fst (_infer_one Scenario.exp_at_zero Scenario.key Scenario.fourth_and_eight
                    None w) = Ok resp
    /\ map action (alternatives resp) = ["GO"; "PUNT"; "FG"]%string
    /\ In (recommendation resp) ["GO"; "PUNT"; "FG"]%string
    /\ last (rationale resp) = Some (action_sentence (recommendation resp))
    /\ ~ In "Model preference"%string (rationale resp)
    /\ uncertainty resp = {| std := 0.012; method := "bootstrap" |}
    /\ version resp = ("2025-08-" ++ _current_version (models_dir w))%string.
Proof.
  eexists. split.
  - vm_compute. reflexivity.
  - apply (recommendation_is_a_simulated_action Scenario.exp_at_zero Scenario.key
             Scenario.fourth_and_eight None (Scenario.boot Scenario.dir_september)).
    + reflexivity.
    + vm_compute. reflexivity.
Defined.

(** A WP artifact stored without a calibrator makes the simulator fail
    with an attribute error on every valid situation whose score
    difference converts to a float. *)
Theorem uncalibrated_wp_model_raises
    (np_exp : float -> float) (ep_model : predictor) (q : RecommendQuery)
    (score : float) :
  valid_query q = true ->
  py_float (score_diff q) = Ok score ->
  simulate_actions_to_wp np_exp ep_model None (features_of q) = Raise AttributeError.
Proof.
  intros Hvalid Hscore.
  destruct (valid_query_bounds q Hvalid) as (_ & Ht & Hy & _).
  unfold simulate_actions_to_wp, _ep_to_wp.
  cbn [features_of f_yardline_100 f_ydstogo f_score_diff].
  rewrite (py_float_yards (yardline_100 q)) by lia.
  replace (ydstogo q =? 0) with false by (symmetry; apply Z.eqb_neq; lia).
  rewrite (py_float_yards (ydstogo q)) by lia.
  rewrite Hscore. reflexivity.
Qed.

(** [uncalibrated_wp_model_raises] for 4th-and-1 at midfield. *)
Lemma uncalibrated_wp_model_raises_midfield :
  simulate_actions_to_wp Scenario.exp_at_zero Scenario.ep_stump None
                         (features_of Scenario.fourth_and_one)
  = Raise AttributeError.
Proof.
  exact (uncalibrated_wp_model_raises Scenario.exp_at_zero Scenario.ep_stump
           Scenario.fourth_and_one _ eq_refl eq_refl).
Defined.

(** ** The opponent's view of the field *)

Lemma opponent_yardline (y : Z) :
  0 <= y <= 100 -> (100 - float_of_Z y)%float = float_of_Z (100 - y).
Proof.
  intros Hy. apply float_eqb_eq.
  apply (forall_range
           (fun y => Leibniz.eqb (100 - float_of_Z y)%float (float_of_Z (100 - y)))
           0 101);
    [ vm_compute; reflexivity | lia ].
Qed.

(** On a whole yard line, the expected points asked for the side without
    the ball (any possession flag other than 1) are the model's value
    for the side with the ball at the mirrored yard line, without
    rounding; the other eight features stay as the offense sees them. *)
Theorem opponent_view_mirrors_the_field
    (ep_model : predictor) (base : Features) (y possession : Z) :
  0 <= y <= 100 ->
  possession <> 1 ->
  _predict_ep_with_possession ep_model base (float_of_Z y) possession
  = _predict_ep_with_possession ep_model base (float_of_Z (100 - y)) 1.
Proof.
  intros Hy Hpos. unfold _predict_ep_with_possession.
  replace (possession =? 1) with false by (symmetry; apply Z.eqb_neq, Hpos).
  cbn [Z.eqb Pos.eqb]. rewrite (opponent_yardline y Hy). reflexivity.
Qed.

(** [opponent_view_mirrors_the_field] at the offense's 12-yard line. *)
Lemma opponent_view_mirrors_the_field_at_12 :
  _predict_ep_with_possession Scenario.ep_stump
    (features_of Scenario.fourth_and_one) (float_of_Z 12) 0
  = _predict_ep_with_possession Scenario.ep_stump
      (features_of Scenario.fourth_and_one) (float_of_Z (100 - 12)) 1.
Proof.
  apply (opponent_view_mirrors_the_field Scenario.ep_stump
           (features_of Scenario.fourth_and_one) 12 0); [ lia | discriminate ].
Defined.

(** ** What a failed inference leaves behind *)

(** When [_infer_one] raises, whatever the exception, the process state
    is the one it started from: nothing was cached. *)
Theorem failed_inference_changes_nothing
    (np_exp : float -> float) (_key : RecommendQuery -> string)
    (q : RecommendQuery) (ov : option string) (w : World) (e : exn) :
  fst (_infer_one np_exp _key q ov w) = Raise e ->
  snd (_infer_one np_exp _key q ov w) = w.
Proof.
  destruct (LRUCache.peek (cache w) (_key q)) as [hit|] eqn:Hpeek.
  - rewrite (infer_one_hit np_exp _key q ov w hit Hpeek). discriminate.
  - rewrite (infer_one_miss np_exp _key q ov w Hpeek).
    destruct (compute_response _ _ _ _); [ | reflexivity ].
    destruct (LRUCache.set _ _ _); [ discriminate | reflexivity ].
Qed.

(** [failed_inference_changes_nothing] for an override that names a version
    never trained. *)
Lemma failed_inference_changes_nothing_unknown_override :
  let w := Scenario.boot Scenario.dir_july in
  snd (_infer_one Scenario.exp_at_zero Scenario.key Scenario.fourth_and_one
                  (Some "2031-01"%string) w) = w.
Proof.
  apply (failed_inference_changes_nothing Scenario.exp_at_zero Scenario.key
           Scenario.fourth_and_one (Some "2031-01"%string)
           (Scenario.boot Scenario.dir_july)
           (FileNotFoundError "ep_model__2031-01.joblib")).
  vm_compute. reflexivity.
Defined.

(** ** The bookkeeping of [/v1/recommend] *)

Lemma infer_one_raise_keeps_world
    (np_exp : float -> float) (_key : RecommendQuery -> string)
    (q : RecommendQuery) (ov : option string) (w w' : World) (e : exn) :
  _infer_one np_exp _key q ov w = (Raise e, w') -> w' = w.
Proof.
  destruct (LRUCache.peek (cache w) (_key q)) as [hit|] eqn:Hpeek.
  - rewrite (infer_one_hit np_exp _key q ov w hit Hpeek). discriminate.
  - rewrite (infer_one_miss np_exp _key q ov w Hpeek).
    destruct (compute_response _ _ _ _); [ | congruence ].
    destruct (LRUCache.set _ _ _); [ discriminate | congruence ].
Qed.

(** A request that succeeds is counted once, its latency is observed
    once, in seconds, and one row is appended to the ledger with the
    recommendation and [delta_wp] of the response; the models are not
    touched and the cache is the one inference left. *)
Theorem recommend_logs_one_row
    (np_exp : float -> float) (_key : RecommendQuery -> string)
    (trace : string) (latency : float)
    (dn togo yl secs quarter score off_to def_to : Z) (at_home : bool)
    (model_version : option string) (w w1 : World) (resp : RecommendResponse) :
  let payload :=
    query_of_params dn togo yl secs quarter score off_to def_to at_home in
  valid_query payload = true ->
  _infer_one np_exp _key payload model_version (snd (REQUESTS_inc w)) = (Ok resp, w1) ->
  online (db w) = true ->
  existsb (fun r => String.eqb (trace_id r) trace) (requests (db w)) = false ->
  recommend np_exp _key trace latency dn togo yl secs quarter score
            off_to def_to at_home model_version w
  = (Ok resp,
     {| cache := cache w1;
        models_dir := models_dir w;
        db := {| online := true;
                 requests := requests (db w)
                             ++ [ {| trace_id := trace; params_json := payload;
                                     latency_ms := latency;
                                     rec := recommendation resp;
                                     row_delta_wp := delta_wp resp |} ] |};
        requests_total := S (requests_total w);
        latency_observed := latency_observed w ++ [(latency / 1000)%float] |}).
Proof.
  intros payload Hvalid Hinfer Honline Hfresh.
  unfold recommend. fold payload.
  unfold bind at 1. unfold lift. rewrite Hvalid.
  unfold bind at 1. cbn [REQUESTS_inc snd] in Hinfer |- *.
  unfold bind at 1. rewrite Hinfer.
  pose proof (infer_one_frame np_exp _key payload model_version
                {| cache := cache w; models_dir := models_dir w; db := db w;
                   requests_total := S (requests_total w);
                   latency_observed := latency_observed w |}) as Hframe.
  rewrite Hinfer in Hframe. cbn [snd models_dir db requests_total latency_observed] in Hframe.
  destruct Hframe as (Hm & Hd & Hr & Hl).
  unfold bind, LATENCY_observe, db_insert_request, insert_request, ret.
  cbn [db cache models_dir requests_total latency_observed online requests trace_id].
  rewrite Hd, Honline, Hfresh, Hm, Hr, Hl. reflexivity.
Qed.

(** [recommend_logs_one_row] for the first request after start-up. *)
Lemma recommend_logs_one_row_first_request :
  let w := Scenario.boot Scenario.dir_july in
  let payload := query_of_params 4 1 50 120 4 0 1 2 true in
  exists resp w1,
    _infer_one Scenario.exp_at_zero Scenario.key payload None (snd (REQUESTS_inc w))
    = (Ok resp, w1)
    /\ recommend Scenario.exp_at_zero Scenario.key "trace-1" 3.5
                 4 1 50 120 4 0 1 2 true None w
       = (Ok resp,
          {| cache := cache w1;
             models_dir := models_dir w;
             db := {| online := true;
                      requests := requests (db w)
                                  ++ [ {| trace_id := "trace-1"; params_json := payload;
                                          latency_ms := 3.5;
                                          rec := recommendation resp;
                                          row_delta_wp := delta_wp resp |} ] |};
             requests_total := S (requests_total w);
             latency_observed := latency_observed w ++ [(3.5 / 1000)%float] |}).
Proof.
  eexists. eexists. split.
  - vm_compute. reflexivity.
  - apply (recommend_logs_one_row Scenario.exp_at_zero Scenario.key "trace-1" 3.5
             4 1 50 120 4 0 1 2 true None (Scenario.boot Scenario.dir_july)).
    + reflexivity.
    + vm_compute. reflexivity.
    + reflexivity.
    + reflexivity.
Defined.

(** A request whose inference raises is still counted, but leaves no
    other trace: no latency is observed, no row is logged and nothing is
    cached. *)
Theorem recommend_counts_failed_requests
    (np_exp : float -> float) (_key : RecommendQuery -> string)
    (trace : string) (latency : float)
    (dn togo yl secs quarter score off_to def_to : Z) (at_home : bool)
    (model_version : option string) (w : World) (e : exn) :
  let payload :=
    query_of_params dn togo yl secs quarter score off_to def_to at_home in
  valid_query payload = true ->
  fst (_infer_one np_exp _key payload model_version (snd (REQUESTS_inc w))) = Raise e ->
  recommend np_exp _key trace latency dn togo yl secs quarter score
            off_to def_to at_home model_version w
  = (Raise e,
     {| cache := cache w; models_dir := models_dir w; db := db w;
        requests_total := S (requests_total w);
        latency_observed := latency_observed w |}).
Proof.
  intros payload Hvalid Hinfer.
  unfold recommend. fold payload.
  unfold bind at 1. unfold lift. rewrite Hvalid.
  unfold bind at 1. cbn [REQUESTS_inc snd] in Hinfer |- *.
  unfold bind at 1.
  destruct (_infer_one np_exp _key payload model_version _) as [[r|e'] w1] eqn:Hrun;
    cbn [fst] in Hinfer; [ discriminate Hinfer | ].
  injection Hinfer as ->.
  rewrite (infer_one_raise_keeps_world _ _ _ _ _ _ _ Hrun). reflexivity.
Qed.

(** [recommend_counts_failed_requests] for a service without a models
    directory. *)
Lemma recommend_counts_failed_requests_no_models :
  let w := Scenario.boot None in
  recommend Scenario.exp_at_zero Scenario.key "trace-1" 3.5
            4 1 50 120 4 0 1 2 true None w
  = (Raise (FileNotFoundError "ep_model__unknown.joblib"),
     {| cache := cache w; models_dir := models_dir w; db := db w;
        requests_total := S (requests_total w);
        latency_observed := latency_observed w |}).
Proof.
  apply (recommend_counts_failed_requests Scenario.exp_at_zero Scenario.key
           "trace-1" 3.5 4 1 50 120 4 0 1 2 true None (Scenario.boot None)).
  - reflexivity.
  - vm_compute. reflexivity.
Defined.

(** ** The bookkeeping of [/v1/bulk] *)

Section BulkFrame.
Variable np_exp : float -> float.
Variable _key : RecommendQuery -> string.
Variable ov : option string.

Lemma mapM_infer_frame (req : list RecommendQuery) (w : World) :
  let w' := snd (mapM (fun item => _infer_one np_exp _key item ov) req w) in
  models_dir w' = models_dir w /\ db w' = db w
  /\ requests_total w' = requests_total w
  /\ latency_observed w' = latency_observed w.
Proof.
  revert w. induction req as [|q req IH]; intros w; cbn [mapM].
  - cbn. auto.
  - unfold bind.
    pose proof (infer_one_frame np_exp _key q ov w) as Hq.
    destruct (_infer_one np_exp _key q ov w) as [[r|e] w1]; cbn [snd] in Hq |- *;
      [ | exact Hq ].
    pose proof (IH w1) as Hrest.
    destruct (mapM _ req w1) as [[rs|e] w2]; cbn [snd ret] in Hrest |- *;
      destruct Hq as (? & ? & ? & ?); destruct Hrest as (? & ? & ? & ?);
      repeat split; congruence.
Qed.

Lemma mapM_length {A B} (f : A -> M B) (l : list A) (w w' : World) (rs : list B) :
  mapM f l w = (Ok rs, w') -> length rs = length l.
Proof.
  revert w w' rs. induction l as [|x l IH]; intros w w' rs; cbn [mapM].
  - intros [= <- _]. reflexivity.
  - unfold bind, ret.
    destruct (f x w) as [[y|e] w1]; [ | discriminate ].
    destruct (mapM f l w1) as [[ys|e] w2] eqn:Hl; [ | discriminate ].
    intros [= <- _]. cbn. f_equal. apply (IH w1 w2). exact Hl.
Qed.
End BulkFrame.

(** A bulk request, whatever it holds and however it ends, is not
    counted in the request counter and writes nothing to the ledger or
    the models.  Its elapsed time is observed, once, exactly when the
    request is valid and the inference of every item succeeds; the
    request then returns the empty response if it was empty and fails
    with a validation error otherwise.  When the request is invalid or an
    item raises, no latency is observed. *)
Theorem bulk_is_not_counted_or_logged
    (np_exp : float -> float) (_key : RecommendQuery -> string)
    (elapsed : float) (req : list RecommendQuery) (ov : option string) (w : World) :
  let out := bulk np_exp _key elapsed req ov w in
  let run := mapM (fun item => _infer_one np_exp _key item ov) req w in
  db (snd out) = db w
  /\ requests_total (snd out) = requests_total w
  /\ models_dir (snd out) = models_dir w
  /\ match forallb valid_query req, fst run with
     | true, Ok responses =>
         latency_observed (snd out) = latency_observed w ++ [elapsed]
         /\ length responses = length req
         /\ fst out = match req with
                      | [] => Ok {| items := [] |}
                      | _ :: _ => Raise ValidationError
                      end
     | true, Raise e =>
         latency_observed (snd out) = latency_observed w /\ fst out = Raise e
     | false, _ =>
         latency_observed (snd out) = latency_observed w
         /\ fst out = Raise ValidationError
     end.
Proof.
  unfold bulk, bind, lift.
  destruct (forallb valid_query req); [ | cbn; auto ].
  pose proof (mapM_infer_frame np_exp _key ov req w) as Hframe.
  destruct (mapM _ req w) as [[responses|e] w1] eqn:Hrun; cbn [snd] in Hframe;
    destruct Hframe as (Hm & Hd & Hr & Hl); [ | cbn; auto ].
  pose proof (mapM_length _ _ _ _ _ Hrun) as Hlen.
  cbn [LATENCY_observe fst snd]. rewrite BulkResponse_init_cases.
  destruct responses as [|r responses], req as [|q req]; try discriminate Hlen;
    cbn; rewrite Hd, Hr, Hm, Hl; repeat split; exact Hlen.
Qed.

(** ** The model store *)

(** What [save_model] writes, [load_model] reads back under the same name
    and version; every other file of the directory reads as before, and a
    file that was missing is still missing. *)
Theorem load_model_after_save_model
    (dir : ModelsDir) (name version : string) (model : predictor)
    (calibrator : option predictor) (metadata : list (string * float)) :
  load_model (save_model dir name version model calibrator metadata) name version
  = Ok (model, calibrator, metadata)
  /\ forall name' version',
       artifact_fname name' version' <> artifact_fname name version ->
       match load_model dir name' version' with
       | Ok found =>
           load_model (save_model dir name version model calibrator metadata)
                      name' version' = Ok found
       | Raise _ =>
           load_model (save_model dir name version model calibrator metadata)
                      name' version'
           = Raise (FileNotFoundError (artifact_fname name' version'))
       end.
Proof.
  unfold load_model, save_model. split.
  - rewrite lookup_insert_eq. reflexivity.
  - intros name' version' Hne.
    rewrite lookup_insert_ne by congruence.
    destruct dir as [files|]; cbn.
    + destruct (files !! artifact_fname name' version'); reflexivity.
    + rewrite lookup_empty. reflexivity.
Qed.

(** An override that names a version without an EP artifact makes a cache
    miss fail with the missing file's name, and leaves the process state
    as it was; there is no fall-back to the current version. *)
Theorem missing_version_raises_file_not_found
    (np_exp : float -> float) (_key : RecommendQuery -> string)
    (q : RecommendQuery) (v : string) (w : World) :
  LRUCache.peek (cache w) (_key q) = None ->
  v <> ""%string ->
  (forall files, models_dir w = Some files ->
                 files !! artifact_fname "ep_model" v = None) ->
  _infer_one np_exp _key q (Some v) w
  = (Raise (FileNotFoundError (artifact_fname "ep_model" v)), w).
Proof.
  intros Hmiss Hv Habsent.
  rewrite (infer_one_miss np_exp _key q (Some v) w Hmiss).
  unfold compute_response.
  replace (String.eqb v "") with false by (symmetry; apply String.eqb_neq, Hv).
  unfold load_model at 1.
  destruct (models_dir w) as [files|]; [ | reflexivity ].
  rewrite (Habsent files eq_refl). reflexivity.
Qed.

(** [missing_version_raises_file_not_found] for an override that asks for
    September when only July was trained. *)
Lemma missing_version_raises_file_not_found_september :
  let w := Scenario.boot Scenario.dir_july in
  _infer_one Scenario.exp_at_zero Scenario.key Scenario.fourth_and_one
             (Some "2025-09"%string) w
  = (Raise (FileNotFoundError (artifact_fname "ep_model" "2025-09")), w).
Proof.
  apply (missing_version_raises_file_not_found Scenario.exp_at_zero Scenario.key
           Scenario.fourth_and_one "2025-09" (Scenario.boot Scenario.dir_july)).
  - reflexivity.
  - discriminate.
  - intros files Hfiles. vm_compute in Hfiles. injection Hfiles as <-.
    vm_compute. reflexivity.
Defined.

(** ** The version the service reports

    Strings, as [str.split] and [str.replace] scan them. *)

Lemma append_cons (a : ascii) (s t : string) :
  (String a s ++ t)%string = String a (s ++ t)%string.
Proof. reflexivity. Qed.








Lemma rev_app_append (s1 s2 acc : string) :
  String.rev_app (s1 ++ s2) acc = String.rev_app s2 (String.rev_app s1 acc).
Proof.
  revert acc. induction s1 as [|a s1 IH]; intros acc; [ reflexivity | ].
  rewrite append_cons. cbn [String.rev_app]. apply IH.
Qed.

(** Every artifact file is picked up by the [*.joblib] glob. *)
Lemma artifact_fname_is_joblib (name v : string) :
  endswith ".joblib" (artifact_fname name v) = true.
Proof.
  unfold endswith, artifact_fname, String.rev.
  rewrite !rev_app_append. reflexivity.
Qed.




(** An artifact whose name does not start with a dot is listed by the
    glob. *)
Lemma glob_joblib_lists_artifacts (files : gmap string Artifact)
    (name v : string) (c : ascii) (name' : string) :
  name = String c name' -> c <> "."%char ->
  is_Some (files !! artifact_fname name v) ->
  In (artifact_fname name v) (glob_joblib files).
Proof.
  intros -> Hc [obj Hobj]. unfold glob_joblib.
  apply List.filter_In. split.
  - apply in_map_iff. exists (artifact_fname (String c name') v, obj). split; [ reflexivity | ].
    apply list_elem_of_In, elem_of_map_to_list, Hobj.
  - rewrite artifact_fname_is_joblib. unfold artifact_fname. rewrite append_cons.
    cbn [startswith andb negb].
    destruct (Ascii.eqb_spec "."%char c) as [E|E]; [ congruence | reflexivity ].
Qed.

(** Before any model is trained (no models directory, or one without a
    [.joblib] file), a cache miss without an override, or with an empty
    one, fails looking for the EP artifact of version unknown, and leaves
    the process state as it was. *)
Theorem untrained_service_raises_file_not_found np_exp _key q mv w :
  LRUCache.peek (cache w) (_key q) = None ->
  mv = None \/ mv = Some ""%string ->
  (forall files, models_dir w = Some files -> glob_joblib files = []) ->
  _infer_one np_exp _key q mv w
  = (Raise (FileNotFoundError "ep_model__unknown.joblib"), w).
Proof.
  intros Hmiss Hmv Hempty.
  rewrite (infer_one_miss np_exp _key q mv w Hmiss).
  unfold compute_response.
  assert (Hv : match mv with
               | Some v => if String.eqb v "" then _current_version (models_dir w) else v
               | None => _current_version (models_dir w)
               end = "unknown"%string).
  { assert (Hc : _current_version (models_dir w) = "unknown"%string).
    { unfold _current_version. destruct (models_dir w) as [files|]; [ | reflexivity ].
      rewrite (Hempty files eq_refl). reflexivity. }
    destruct Hmv as [-> | ->]; exact Hc. }
  rewrite Hv. unfold load_model at 1.
  destruct (models_dir w) as [files|] eqn:Hdir; [ | reflexivity ].
  destruct (files !! artifact_fname "ep_model" "unknown") as [obj|] eqn:Hobj; [ | reflexivity ].
  exfalso.
  assert (Hin : In (artifact_fname "ep_model" "unknown") (glob_joblib files)).
  { apply (glob_joblib_lists_artifacts files "ep_model" "unknown" "e"%char "p_model");
      [ reflexivity | discriminate | eexists; exact Hobj ]. }
  rewrite (Hempty files eq_refl) in Hin. exact Hin.
Qed.

(** [untrained_service_raises_file_not_found] for an empty models
    directory. *)
Lemma untrained_service_raises_file_not_found_empty_dir :
  let w := Scenario.boot (Some ∅) in
  _infer_one Scenario.exp_at_zero Scenario.key Scenario.fourth_and_one None w
  = (Raise (FileNotFoundError "ep_model__unknown.joblib"), w).
Proof.
  apply (untrained_service_raises_file_not_found Scenario.exp_at_zero Scenario.key
           Scenario.fourth_and_one None (Scenario.boot (Some ∅))).
  - reflexivity.
  - left. reflexivity.
  - intros files Hfiles. injection Hfiles as <-. reflexivity.
Defined.

(** ** The capacity of the cache *)

Section CacheCapacity.
Context {V : Type}.

Lemma dict_get_none_not_in (d : list (string * V)) (k : string) :
  dict_get d k = None -> ~ In k (map fst d).
Proof.
  induction d as [|[k' v] d IH]; cbn; [ tauto | ].
  destruct (String.eqb_spec k' k) as [E|E]; [ discriminate | ].
  intros Hd [H|H]; [ congruence | exact (IH Hd H) ].
Qed.

Lemma remove_keys (k : string) (d : list (string * V)) :
  map fst (LRUCache.remove k d)
  = List.filter (fun k' => negb (String.eqb k' k)) (map fst d).
Proof.
  unfold LRUCache.remove.
  induction d as [|[k' v] d IH]; cbn; [ reflexivity | ].
  destruct (String.eqb k' k); cbn; [ exact IH | rewrite IH; reflexivity ].
Qed.

Lemma remove_length (k : string) (d : list (string * V)) (v : V) :
  dict_get d k = Some v ->
  (length (LRUCache.remove k d) < length d)%nat.
Proof.
  unfold LRUCache.remove.
  induction d as [|[k' v'] d IH]; cbn; [ discriminate | ].
  destruct (String.eqb k' k); cbn.
  - intros _. pose proof (List.filter_length_le
      (fun kv : string * V => negb (String.eqb (fst kv) k)) d). lia.
  - intros Hd. specialize (IH Hd). lia.
Qed.

Lemma nodup_moved_to_end (k : string) (v : V) (d : list (string * V)) :
  List.NoDup (map fst d) ->
  List.NoDup (map fst (LRUCache.remove k d ++ [(k, v)])).
Proof.
  intros Hd. rewrite map_app, remove_keys. cbn.
  apply List.NoDup_app.
  - apply List.NoDup_filter, Hd.
  - repeat constructor. intros [].
  - intros k' Hin [<-|[]]. apply List.filter_In in Hin as [_ Hk].
    rewrite String.eqb_refl in Hk. discriminate.
Qed.

Lemma evict_suffix (fuel : nat) (limit : Z) (d : list (string * V)) :
  exists dropped, d = dropped ++ LRUCache.evict fuel limit d.
Proof.
  revert d. induction fuel as [|fuel IH]; intros d; cbn; [ exists []; reflexivity | ].
  destruct (limit <? Z.of_nat (length d) + 1); [ | exists []; reflexivity ].
  destruct d as [|kv d]; [ exists []; reflexivity | ].
  destruct (IH d) as [dropped Hd]. exists (kv :: dropped). cbn. rewrite <- Hd. reflexivity.
Qed.

Lemma evict_makes_room (fuel : nat) (limit : Z) (d : list (string * V)) :
  1 <= limit -> (length d <= fuel)%nat ->
  Z.of_nat (length (LRUCache.evict fuel limit d)) + 1 <= limit.
Proof.
  intros Hlimit. revert d. induction fuel as [|fuel IH]; intros d Hfuel.
  - destruct d; cbn in *; lia.
  - cbn [LRUCache.evict].
    destruct (Z.ltb_spec limit (Z.of_nat (length d) + 1)) as [Hfull|Hroom]; [ | lia ].
    destruct d as [|kv d]; [ cbn; lia | ].
    apply IH. cbn in Hfuel. lia.
Qed.

Lemma get_within_capacity (c : LRUCache.t V) (k : string) :
  within_capacity c -> within_capacity (snd (LRUCache.get c k)).
Proof.
  intros [Hnd Hlen]. unfold LRUCache.get, LRUCache.peek.
  destruct (dict_get (LRUCache.data c) k) as [v|] eqn:Hk; [ | split; assumption ].
  split; cbn [snd LRUCache.data LRUCache.maxsize].
  - apply nodup_moved_to_end, Hnd.
  - rewrite length_app. cbn [length]. pose proof (remove_length k _ v Hk). lia.
Qed.

Lemma set_within_capacity (c c' : LRUCache.t V) (k : string) (v : V) :
  within_capacity c -> LRUCache.set c k v = Ok c' -> within_capacity c'.
Proof.
  intros [Hnd Hlen]. unfold LRUCache.set, LRUCache.peek.
  destruct (Z.ltb_spec (LRUCache.maxsize c) 1) as [|Hmax]; [ discriminate | ].
  destruct (dict_get (LRUCache.data c) k) as [old|] eqn:Hk; intros [= <-];
    split; cbn [LRUCache.data LRUCache.maxsize].
  - apply nodup_moved_to_end, Hnd.
  - rewrite length_app. cbn [length]. pose proof (remove_length k _ old Hk). lia.
  - destruct (evict_suffix (length (LRUCache.data c)) (LRUCache.maxsize c)
                           (LRUCache.data c)) as [dropped Hd].
    rewrite Hd, map_app in Hnd. apply List.NoDup_app_remove_l in Hnd.
    rewrite map_app. cbn. apply List.NoDup_app.
    + exact Hnd.
    + repeat constructor. intros [].
    + intros k' Hin [<-|[]].
      exact (dict_get_none_not_in _ _ (dict_get_evict _ _ _ _ Hk) Hin).
  - rewrite length_app. cbn [length].
    pose proof (evict_makes_room (length (LRUCache.data c)) (LRUCache.maxsize c)
                                 (LRUCache.data c) Hmax (Nat.le_refl _)). lia.
Qed.
End CacheCapacity.

(** Inference keeps the cache well formed: when the cache holds one entry
    per key and no more than [maxsize] entries, it still does after
    [_infer_one], whether the call hits, misses or raises. *)
Theorem cache_stays_within_capacity
    (np_exp : float -> float) (_key : RecommendQuery -> string)
    (q : RecommendQuery) (ov : option string) (w : World) :
  within_capacity (cache w) ->
  within_capacity (cache (snd (_infer_one np_exp _key q ov w))).
Proof.
  intros Hw.
  destruct (LRUCache.peek (cache w) (_key q)) as [hit|] eqn:Hpeek.
  - rewrite (infer_one_hit np_exp _key q ov w hit Hpeek). cbn [snd with_cache cache].
    apply get_within_capacity, Hw.
  - rewrite (infer_one_miss np_exp _key q ov w Hpeek).
    destruct (compute_response _ _ _ _) as [resp|]; [ | exact Hw ].
    destruct (LRUCache.set _ _ _) as [c|] eqn:Hset; [ | exact Hw ].
    cbn [snd with_cache cache]. exact (set_within_capacity _ _ _ _ Hw Hset).
Qed.

(** [cache_stays_within_capacity] for the first call after start-up. *)
Lemma cache_stays_within_capacity_first_call :
  within_capacity
    (cache (snd (_infer_one Scenario.exp_at_zero Scenario.key Scenario.fourth_and_one
                            None (Scenario.boot Scenario.dir_july)))).
Proof.
  apply (cache_stays_within_capacity Scenario.exp_at_zero Scenario.key
           Scenario.fourth_and_one None (Scenario.boot Scenario.dir_july)).
  split; [ constructor | cbn; lia ].
Defined.
